(** * tf_container: cluster topology, liveness monitor and process lifecycle

    A shallow embedding of [src/tf_container/trainer.py] (class [Trainer]) and
    [src/tf_container/train.py] (the top-level [train] orchestration),
    followed by the properties of the specification that concern them.

    Python dictionaries are finite maps ([gmap]) from their string keys,
    Python lists are lists, a [str] is the string of its UTF-8 bytes,
    fallible functions return a [result], and the
    code that touches the process (environment variables, the hyperparameter
    dictionary shared by reference, threads, sub-processes, [os._exit]) runs
    in a small monad that threads the state of the process and collects the
    events: the calls made to the outside, in order. *)

From stdpp Require Import gmap strings list fin_maps pretty.

Open Scope string_scope.
Open Scope list_scope.

(** ** Python primitives *)

Module Py.

(** The exceptions this code can raise or see, by class. [ForeignError]
    stands for an exception of any other class raised by a collaborator
    that is not part of these two files (customer script, container
    support, TensorFlow). *)
Inductive exn : Type :=
| ValueError
| KeyError
| IndexError
| AttributeError
| CalledProcessError
| OSError
| ForeignError (cls : string).

Definition exn_class (e : exn) : string :=
  match e with
  | ValueError => "ValueError"
  | KeyError => "KeyError"
  | IndexError => "IndexError"
  | AttributeError => "AttributeError"
  | CalledProcessError => "CalledProcessError"
  | OSError => "OSError"
  | ForeignError cls => cls
  end.

(** A call either returns a value or raises. *)
Inductive result (A : Type) : Type :=
| Ok (a : A)
| Raise (e : exn).
Arguments Ok {A} a.
Arguments Raise {A} e.

#[export] Instance result_ret : MRet result := fun _ a => Ok a.
#[export] Instance result_bind : MBind result := fun _ _ f r =>
  match r with
  | Ok a => f a
  | Raise e => Raise e
  end.

(** Values stored in the hyperparameter dictionary. *)
Inductive value : Type :=
| VInt (z : Z)
| VStr (s : string).

#[export] Instance value_eq_dec : EqDecision value.
Proof. solve_decision. Defined.

(** [str(v)] *)
Definition str (v : value) : string :=
  match v with
  | VInt z => pretty z
  | VStr s => s
  end.

(** [x in l] on a list of strings. *)
Definition contains (x : string) (l : list string) : bool :=
  bool_decide (x ∈ l).

(** [l.index(x)]: the first position holding [x], [ValueError] when there
    is none. *)
Fixpoint list_index (l : list string) (x : string) : result nat :=
  match l with
  | [] => Raise ValueError
  | y :: l' =>
      if decide (y = x) then Ok 0
      else n ← list_index l' x; Ok (S n)
  end.

(** [d.get(k, default)] *)
Definition get {V} (d : gmap string V) (k : string) (default : V) : V :=
  match d !! k with
  | Some v => v
  | None => default
  end.

(** A [string] holds the UTF-8 bytes of a Python [str]. A character (a
    code point) is a byte that is not a continuation byte [10xxxxxx],
    together with the continuation bytes that follow it. *)
Definition is_continuation (b : Ascii.ascii) : bool :=
  match b with
  | Ascii.Ascii _ _ _ _ _ _ b6 b7 => b7 && negb b6
  end.

(** [len(s)]: the number of characters of [s]. *)
Fixpoint count_chars (l : list Ascii.ascii) : nat :=
  match l with
  | [] => 0
  | b :: l' => if is_continuation b then count_chars l' else S (count_chars l')
  end.

Definition len (s : string) : nat := count_chars (String.list_ascii_of_string s).

Fixpoint skip_continuation (l : list Ascii.ascii) : list Ascii.ascii :=
  match l with
  | [] => []
  | b :: l' => if is_continuation b then skip_continuation l' else l
  end.

(** The bytes [l] of a text, last byte first, without the last [n]
    characters of the text. *)
Fixpoint drop_chars (n : nat) (l : list Ascii.ascii) : list Ascii.ascii :=
  match n with
  | 0 => l
  | S n' =>
      match skip_continuation l with
      | [] => []
      | _ :: l' => drop_chars n' l'
      end
  end.

(** [s[:-n]] for [n >= 1]: all of [s] but its last [n] characters, the
    empty string when [s] has fewer. *)
Definition drop_last (n : nat) (s : string) : string :=
  String.string_of_list_ascii (rev (drop_chars n (rev (String.list_ascii_of_string s)))).

(** Whether [s] holds a NUL byte. *)
Definition has_nul (s : string) : bool :=
  existsb (fun b => Ascii.eqb b Ascii.zero) (String.list_ascii_of_string s).

(** A name that [os.environ] accepts: not empty, and without [=] and
    without a NUL byte. *)
Definition environ_name (k : string) : bool :=
  match k with
  | EmptyString => false
  | _ =>
      negb (existsb (fun b => Ascii.eqb b (Ascii.ascii_of_nat 61))
              (String.list_ascii_of_string k))
      && negb (has_nul k)
  end.

(** Whether [os.environ[k] = v] is accepted. *)
Definition environ_accepts (k v : string) : bool :=
  environ_name k && negb (has_nul v).

(** [s.startswith(p)] *)
Definition startswith (p s : string) : bool := String.prefix p s.

(** ['{}:{}'.format(host, port)] *)
Definition format_host_port (host port : string) : string :=
  host +:+ ":" +:+ port.

End Py.
Import Py.

(** ** The topology descriptor ([tf_config]) *)

(** [tf_config["task"]] *)
Record Task : Type := mkTask {
  index : nat;
  type : string
}.

(** [tf_config]: [cluster] maps a job name (["master"], ["ps"], ["worker"])
    to the ordered list of its ["host:port"] addresses; a key that the code
    does not set is absent from the map. *)
Record TfConfig : Type := mkTfConfig {
  cluster : gmap string (list string);
  task : Task;
  environment : string
}.

(** ** The customer script and what is built from it *)

(** TensorFlow objects (features, models, estimators returned by the
    customer) are opaque here: an object is known by its identity. *)
Definition PyObj := nat.

(** The hyperparameter dictionary. *)
Abbreviation dict := (gmap string value).

(** [RunConfig(model_dir=..., **runconfig_params)] *)
Record RunConfig : Type := mkRunConfig {
  model_dir : value;
  runconfig_params : dict
}.

(** The three model-construction callables of the customer module, each
    present or not ([hasattr]); a call may raise. *)
Record CustomerScript : Type := mkCustomerScript {
  estimator_fn : option (RunConfig -> dict -> result PyObj);
  keras_model_fn : option (dict -> result PyObj);
  model_fn : option (PyObj -> PyObj -> PyObj -> dict -> result PyObj)
}.

(** A reference to a dictionary object in the heap. *)
Definition loc := nat.

(** What [_build_estimator] returns: the customer's own estimator, a Keras
    model converted by [tf.keras.estimator.model_to_estimator], or a
    [tf.estimator.Estimator] around a model function. *)
Inductive Estimator : Type :=
| CustomerEstimator (e : PyObj)
| ModelToEstimator (keras_model : PyObj) (config : RunConfig)
| TfEstimator (model_fn : PyObj -> PyObj -> PyObj -> dict -> result PyObj)
              (params : loc) (config : RunConfig).

(** ** The process: heap, environment variables, events *)

(** Calls that leave the two files, in the order they are made. *)
Inductive Event : Type :=
| EvDownloadUserModule
| EvPipInstallRequirements
| EvImportUserModule
| EvGetBucketLocation (url : string)
| EvSetEnviron (key val : string)
| EvLogInfo (msg : string)
| EvLogParams (d : dict)
| EvThreadStart (current_host : string) (hosts : list string)
                (tf_config : TfConfig)
| EvTrainAndLogExceptions (output_dir : string)
| EvExportSavedModel (checkpoint_dir : value) (model_dir : string)
| EvCheckCall (argv : list string)
| EvSleep (secs : nat)
| EvOsExit (code : Z).

(** The state of the process: [heap] holds the dictionary objects (a
    location that was never written holds the empty dictionary), [environ]
    is [os.environ], and [checks] counts the sub-processes started so
    far. *)
Record World : Type := mkWorld {
  heap : gmap loc dict;
  environ : gmap string string;
  checks : nat
}.

(** How a computation ends: it returns, an exception propagates, the
    process is gone ([os._exit]), or it is still running when the fuel of
    a loop is used up. *)
Inductive Outcome (A : Type) : Type :=
| Returns (a : A)
| Raises (e : exn)
| Exits (code : Z)
| Running.
Arguments Returns {A} a.
Arguments Raises {A} e.
Arguments Exits {A} code.
Arguments Running {A}.

(** A computation takes the state of the process and gives how it ends,
    the state it leaves, and the events it emitted, oldest first. *)
Definition M (A : Type) : Type := World -> Outcome A * World * list Event.

(** The run [r], after the events [evs]. *)
Definition after {A} (evs : list Event) (r : Outcome A * World * list Event)
  : Outcome A * World * list Event :=
  (r.1.1, r.1.2, (evs ++ r.2)%list).

#[export] Instance M_ret : MRet M := fun _ a w => (Returns a, w, []).
#[export] Instance M_bind : MBind M := fun _ _ f m w =>
  match m w with
  | (Returns a, w', evs) => after evs (f a w')
  | (Raises e, w', evs) => (Raises e, w', evs)
  | (Exits c, w', evs) => (Exits c, w', evs)
  | (Running, w', evs) => (Running, w', evs)
  end.

Definition raise {A} (e : exn) : M A := fun w => (Raises e, w, []).
Definition running {A} : M A := fun w => (Running, w, []).

(** A pure fallible call inside the process. *)
Definition lift {A} (r : result A) : M A :=
  match r with
  | Ok a => mret a
  | Raise e => raise e
  end.

Definition record (e : Event) : M unit := fun w => (Returns tt, w, [e]).

(** A call to a collaborator whose outcome on this run is [r]. *)
Definition call {A} (e : Event) (r : result A) : M A :=
  record e;; lift r.

Definition get_dict (l : loc) : M dict := fun w =>
  (Returns (heap w !!! l), w, []).

(** [d[k] = v] on the dictionary object at [l]. *)
Definition setitem (l : loc) (k : string) (v : value) : M unit := fun w =>
  (Returns tt,
   {| heap := <[l := <[k := v]> (heap w !!! l)]> (heap w);
      environ := environ w; checks := checks w |},
   []).

(** The state of the process after [os.environ[k] = v]. *)
Definition environ_set (k v : string) (w : World) : World :=
  {| heap := heap w; environ := <[k := v]> (environ w);
     checks := checks w |}.

(** [os.environ[k] = v] (Python 3): [ValueError] when the name is not
    one that [os.environ] accepts or the value holds a NUL byte, and
    nothing is written then. *)
Definition set_environ (k v : string) : M unit := fun w =>
  if environ_accepts k v
  then (Returns tt,
        {| heap := heap w; environ := <[k := v]> (environ w);
           checks := checks w |},
        [EvSetEnviron k v])
  else (Raises ValueError, w, []).

(** [os.environ[k]] *)
Definition get_environ (k : string) : M string := fun w =>
  match environ w !! k with
  | Some v => (Returns v, w, [])
  | None => (Raises KeyError, w, [])
  end.

Definition log_info (msg : string) : M unit := record (EvLogInfo msg).

(** [os._exit(code)]: the process ends at once; no [finally] block and no
    handler runs after it. *)
Definition os_exit {A} (code : Z) : M A := fun w =>
  (Exits code, w, [EvOsExit code]).

(** [try: body  except <handles>: handler] *)
Definition try_except {A} (body : M A) (handles : exn -> bool)
    (handler : M A) : M A := fun w =>
  match body w with
  | (Raises e, w', evs) =>
      if handles e then after evs (handler w') else (Raises e, w', evs)
  | r => r
  end.

(** [try: body  finally: cleanup]. The cleanup runs when the body returns
    or raises; what the body returned or raised stands unless the cleanup
    itself ends otherwise. *)
Definition try_finally {A} (body : M A) (cleanup : M unit) : M A := fun w =>
  match body w with
  | (Returns a, w', evs) =>
      after evs
        match cleanup w' with
        | (Returns _, w'', evs') => (Returns a, w'', evs')
        | (Raises e, w'', evs') => (Raises e, w'', evs')
        | (Exits c, w'', evs') => (Exits c, w'', evs')
        | (Running, w'', evs') => (Running, w'', evs')
        end
  | (Raises e, w', evs) =>
      after evs
        match cleanup w' with
        | (Returns _, w'', evs') => (Raises e, w'', evs')
        | (Raises e', w'', evs') => (Raises e', w'', evs')
        | (Exits c, w'', evs') => (Exits c, w'', evs')
        | (Running, w'', evs') => (Running, w'', evs')
        end
  | (Exits c, w', evs) => (Exits c, w', evs)
  | (Running, w', evs) => (Running, w', evs)
  end.

(** What the collaborators outside the two files do on one run: whether
    each call returns ([Ok]) or raises, the exit status of the n-th
    sub-process ([None] when it cannot be started), and [json.dumps].
    Two facts about them are part of the record: [json.dumps] escapes
    control characters, so its text holds no NUL byte, and the location of
    a bucket is read from an XML answer, which cannot hold one either.
    What a collaborator does to the process besides (a customer module
    can set environment variables when it is imported) is not described
    here; the properties speak of what the two files themselves do. *)
Record Externals : Type := mkExternals {
  download_user_module : result unit;
  pip_install_requirements : result unit;
  import_user_module : result CustomerScript;
  get_bucket_location : result (option string);
  train_and_log_exceptions : result unit;
  export_saved_model : result unit;
  exit_status : nat -> option nat;
  json_dumps : TfConfig -> string;
  json_dumps_text : forall cfg, has_nul (json_dumps cfg) = false;
  get_bucket_location_text :
    forall s, get_bucket_location = Ok (Some s) -> has_nul s = false
}.

(** ** class Trainer (trainer.py) *)

Record Trainer : Type := mkTrainer {
  customer_script : CustomerScript;
  current_host : string;
  hosts : list string;
  train_steps : value;
  eval_steps : value;
  training_path : string;
  model_path : value;
  ouput_path : string;
  task_type : option string;
  customer_params : loc
}.

(** [self.task_type = t] *)
Definition set_task_type (self : Trainer) (t : string) : Trainer :=
  {| customer_script := customer_script self;
     current_host := current_host self;
     hosts := hosts self;
     train_steps := train_steps self;
     eval_steps := eval_steps self;
     training_path := training_path self;
     model_path := model_path self;
     ouput_path := ouput_path self;
     task_type := Some t;
     customer_params := customer_params self |}.

(** [Trainer._configure_s3_file_system]. [parse_s3_url] and the S3 client
    are collaborators: one event, and the bucket location they give. *)
Definition _configure_s3_file_system (ext : Externals) (model_path : string)
  : M unit :=
  bucket_location ← call (EvGetBucketLocation model_path)
                         (get_bucket_location ext);
  (match bucket_location with
   | Some (String c r) => set_environ "S3_REGION" (String c r)
   | _ => mret tt
   end);;
  set_environ "S3_USE_HTTPS" "1".

(** The dictionary object that the default argument [customer_params={}]
    denotes: one object, made when the class is defined. *)
Definition default_customer_params : loc := 0.

(** [Trainer.__init__]. [customer_params] is [None] when the caller leaves
    the argument out. *)
Definition __init__ (ext : Externals)
    (customer_script : CustomerScript)
    (current_host : string) (hosts : list string)
    (train_steps eval_steps : value)
    (training_path : string) (model_path : value) (output_path : string)
    (min_eval_frequency : value)
    (customer_params : option loc)
    (save_checkpoints_secs : value) : M Trainer :=
  let customer_params := default default_customer_params customer_params in
  let self :=
    {| customer_script := customer_script;
       current_host := current_host;
       hosts := hosts;
       train_steps := train_steps;
       eval_steps := eval_steps;
       training_path := training_path;
       model_path := model_path;
       ouput_path := output_path;
       task_type := None;
       customer_params := customer_params |} in
  d ← get_dict customer_params;
  setitem customer_params "min_eval_frequency"
          (get d "min_eval_frequency" min_eval_frequency);;
  d ← get_dict customer_params;
  setitem customer_params "save_checkpoints_secs"
          (get d "save_checkpoints_secs" save_checkpoints_secs);;
  (match model_path with
   | VStr p => if startswith "s3://" p
               then _configure_s3_file_system ext p
               else mret tt
   | VInt _ => raise AttributeError
   end);;
  mret self.

(** [Trainer._get_task_type] *)
Definition _get_task_type (self : Trainer) (masters : list string) : string :=
  if contains (current_host self) masters then "master" else "worker".

(** The inner function [build_host_addresses] of [build_tf_config]. *)
Definition build_host_addresses (my_hosts : list string) (port : string)
  : list string :=
  (fun host => format_host_port host port) <$> my_hosts.

(** Truth value of [ps], which is [None] or a list. *)
Definition truthy (ps : option (list string)) : bool :=
  match ps with
  | Some (_ :: _) => true
  | _ => false
  end.

(** [task_map[k]] for the dictionary [task_map] of [build_tf_config]. *)
Definition task_map_lookup (masters workers : list string)
    (ps : option (list string)) (k : string) : result (list string) :=
  let task_map : gmap string (list string) :=
    <["worker" := workers]> (<["master" := masters]> ∅) in
  let task_map :=
    if truthy ps then <["ps" := default [] ps]> task_map else task_map in
  match task_map !! k with
  | Some l => Ok l
  | None => Raise KeyError
  end.

(** [Trainer.build_tf_config]. The method assigns [self.task_type] before
    it looks the current host up, so the object is returned as well, also
    when the lookup raises. *)
Definition build_tf_config (self : Trainer) : Trainer * result TfConfig :=
  let masters := take 1 (hosts self) in
  let workers := drop 1 (hosts self) in
  let ps := if decide (1 < length (hosts self))
            then Some (hosts self) else None in
  let t := _get_task_type self masters in
  let self := set_task_type self t in
  (self,
   role ← task_map_lookup masters workers ps t;
   task_id ← list_index role (current_host self);
   let cl : gmap string (list string) :=
     <["master" := build_host_addresses masters "2222"]> ∅ in
   let cl :=
     if truthy ps
     then <["ps" := build_host_addresses (default [] ps) "2223"]> cl
     else cl in
   let cl :=
     if decide (0 < length workers)
     then <["worker" := build_host_addresses workers "2222"]> cl
     else cl in
   Ok {| cluster := cl;
         task := {| index := task_id; type := t |};
         environment := "cloud" |}).

Definition valid_runconfig_keys : list string :=
  ["save_summary_steps"; "save_checkpoints_secs"; "save_checkpoints_steps";
   "keep_checkpoint_max"; "keep_checkpoint_every_n_hours";
   "log_step_count_steps"].

(** The inner function [_model_fn] of [_build_estimator]: the attribute
    [model_fn] of the customer module is read when the function is called. *)
Definition _model_fn (self : Trainer)
    (features labels mode : PyObj) (params : dict) : result PyObj :=
  match model_fn (customer_script self) with
  | Some f => f features labels mode params
  | None => Raise AttributeError
  end.

(** [Trainer._build_estimator] *)
Definition _build_estimator (self : Trainer) : M Estimator :=
  d ← get_dict (customer_params self);
  let runconfig_params : dict :=
    filter (fun kv => kv.1 ∈ valid_runconfig_keys) d in
  log_info "creating RunConfig:";;
  record (EvLogParams runconfig_params);;
  let run_config :=
    {| model_dir := model_path self;
       runconfig_params := runconfig_params |} in
  match estimator_fn (customer_script self) with
  | Some f =>
      log_info "invoking estimator_fn";;
      d ← get_dict (customer_params self);
      e ← lift (f run_config d);
      mret (CustomerEstimator e)
  | None =>
      match keras_model_fn (customer_script self) with
      | Some g =>
          log_info "involing keras_model_fn";;
          d ← get_dict (customer_params self);
          model ← lift (g d);
          mret (ModelToEstimator model run_config)
      | None =>
          log_info "creating the estimator";;
          mret (TfEstimator (_model_fn self) (customer_params self) run_config)
      end
  end.

(** ** train.py *)

Definition CHANNEL_DIR : string := "training".

(** [subprocess.check_call(argv, ...)]: the exit status of the sub-process
    decides; [CalledProcessError] on a status other than 0, [OSError] when
    the program cannot be started. *)
Definition check_call (ext : Externals) (argv : list string) : M unit :=
  fun w =>
    let w' := {| heap := heap w; environ := environ w;
                 checks := S (checks w) |} in
    match exit_status ext (checks w) with
    | Some 0 => (Returns tt, w', [EvCheckCall argv])
    | Some (S _) => (Raises CalledProcessError, w', [EvCheckCall argv])
    | None => (Raises OSError, w', [EvCheckCall argv])
    end.

(** [time.sleep(secs)] *)
Definition sleep (secs : nat) : M unit := record (EvSleep secs).

Definition is_CalledProcessError (e : exn) : bool :=
  match e with
  | CalledProcessError => true
  | _ => false
  end.

(** [_wait_until_master_is_down]. Each unit of fuel is one turn of the
    [while True] loop; the turn says whether the loop goes on. *)
Fixpoint _wait_until_master_is_down (ext : Externals) (master : string)
    (fuel : nat) : M unit :=
  match fuel with
  | 0 => running
  | S fuel' =>
      again ← try_except
                (check_call ext ["curl"; master +:+ ":2222"];;
                 sleep 10;;
                 mret true)
                is_CalledProcessError
                (log_info ("master " +:+ master +:+
                           " is down, stopping parameter server");;
                 mret false);
      if again : bool
      then _wait_until_master_is_down ext master fuel'
      else mret tt
  end.

(** [save_tf_config_env_var] *)
Definition save_tf_config_env_var (ext : Externals) (tf_config : TfConfig)
  : M unit :=
  set_environ "TF_CONFIG" (json_dumps ext tf_config);;
  log_info "----------------------TF_CONFIG--------------------------";;
  v ← get_environ "TF_CONFIG";
  log_info v;;
  log_info "---------------------------------------------------------".

(** [_run_ps_server]: the thread that runs the parameter server is started
    and never joined; what it does afterwards runs beside the main flow. *)
Definition _run_ps_server (current_host : string) (hosts : list string)
    (tf_config : TfConfig) : M unit :=
  record (EvThreadStart current_host hosts tf_config).

(** [_get_master] *)
Definition _get_master (tf_config : TfConfig) : result string :=
  match cluster tf_config !! "master" with
  | None => Raise KeyError
  | Some [] => Raise IndexError
  | Some (m :: _) => Ok (drop_last 5 m)
  end.

(** [cs.TrainingEnvironment()] as far as [train] reads it. *)
Record TrainingEnvironment : Type := mkTrainingEnvironment {
  env_hyperparameters : loc;
  env_model_dir : string;
  env_output_dir : string;
  env_channel_dirs : gmap string string;
  env_current_host : string;
  env_hosts : list string
}.

(** What the statements of [train] before its [try] leave in scope. *)
Record Started : Type := mkStarted {
  train_wrapper : Trainer;
  tf_config : TfConfig;
  checkpoint_dir : value
}.

(** [train], from its first statement to [save_tf_config_env_var]. *)
Definition train_setup (ext : Externals) (env : TrainingEnvironment)
  : M Started :=
  hp ← get_dict (env_hyperparameters env);
  let checkpoint_dir := get hp "checkpoint_path" (VStr (env_model_dir env)) in
  let train_steps := get hp "training_steps" (VInt 1000) in
  let eval_steps := get hp "evaluation_steps" (VInt 100) in
  set_environ "S3_REQUEST_TIMEOUT_MSEC"
              (str (get hp "s3_checkpoint_save_timeout" (VInt 60000)));;
  call EvDownloadUserModule (download_user_module ext);;
  call EvPipInstallRequirements (pip_install_requirements ext);;
  customer_script ← call EvImportUserModule (import_user_module ext);
  training_path ← lift (match env_channel_dirs env !! CHANNEL_DIR with
                        | Some p => Ok p
                        | None => Raise KeyError
                        end);
  train_wrapper ← __init__ ext customer_script
                    (env_current_host env) (env_hosts env)
                    train_steps eval_steps
                    training_path checkpoint_dir (env_output_dir env)
                    (VInt 1000)
                    (Some (env_hyperparameters env))
                    (VInt 300);
  let '(train_wrapper, built) := build_tf_config train_wrapper in
  tf_config ← lift built;
  (if decide (1 < length (env_hosts env))
   then _run_ps_server (env_current_host env) (env_hosts env) tf_config
   else mret tt);;
  save_tf_config_env_var ext tf_config;;
  mret {| train_wrapper := train_wrapper;
          tf_config := tf_config;
          checkpoint_dir := checkpoint_dir |}.

(** The body of the [try] block of [train]. *)
Definition train_body (ext : Externals) (env : TrainingEnvironment)
    (fuel : nat) (s : Started) : M unit :=
  call (EvTrainAndLogExceptions (env_output_dir env))
       (train_and_log_exceptions ext);;
  (if bool_decide (checkpoint_dir s ≠ VStr (env_model_dir env))
      && bool_decide (task_type (train_wrapper s) = Some "master")
   then call (EvExportSavedModel (checkpoint_dir s) (env_model_dir env))
             (export_saved_model ext)
   else mret tt);;
  (if bool_decide (task_type (train_wrapper s) ≠ Some "master")
   then master ← lift (_get_master (tf_config s));
        _wait_until_master_is_down ext master fuel
   else mret tt).

(** [train]: the setup, then [try: ... finally: os._exit(0)]. *)
Definition train (ext : Externals) (env : TrainingEnvironment) (fuel : nat)
  : M unit :=
  s ← train_setup ext env;
  try_finally (train_body ext env fuel s) (os_exit 0).

(** ** The experiment (trainer.py) and the parameter server (train.py) *)

Definition valid_experiment_keys : list string :=
  ["eval_metrics"; "train_monitors"; "eval_hooks"; "local_eval_frequency";
   "eval_delay_secs"; "continuous_eval_throttle_secs"; "min_eval_frequency";
   "delay_workers_by_global_step"; "train_steps_per_iteration"].

(** Customer code that is handed objects of the process. It runs in the
    process: it can read and change the dictionaries and the environment,
    and it can end in any way. It makes none of the calls of the two
    files, so it adds no event. *)
Definition Customer (A : Type) : Type := World -> Outcome A * World.

Definition customer {A} (c : Customer A) : M A := fun w => (c w, []).

(** What a customer input function gives back: the input itself, or a
    function of no argument that produces it ([hasattr(o, '__call__')]). *)
Inductive FnOrValue : Type :=
| AValue (o : PyObj)
| AFunction (f : Customer PyObj).

(** [_function]: a function is returned as it is, anything else is wrapped
    in [lambda: object]. *)
Definition _function (object : FnOrValue) : Customer PyObj :=
  match object with
  | AFunction f => f
  | AValue o => fun w => (Returns o, w)
  end.

(** The input functions of the customer module, each present or not. They
    are attributes of the same module as the callables of
    [CustomerScript]; [_experiment_fn] is the only reader. Each is given
    the hyperparameter dictionary itself, by reference. *)
Record CustomerInputs : Type := mkCustomerInputs {
  train_input_fn : option (string -> loc -> Customer FnOrValue);
  eval_input_fn : option (string -> loc -> Customer FnOrValue);
  serving_input_fn : option (loc -> Customer FnOrValue)
}.

(** The inner functions [_train_input_fn] and [_eval_input_fn] of
    [_experiment_fn]: the attribute is looked up, the customer function is
    called with the training path and the hyperparameter dictionary, and
    what it gives is called through [_function]. *)
Definition _input_fn (fn : option (string -> loc -> Customer FnOrValue))
    (self : Trainer) : M PyObj :=
  match fn with
  | None => raise AttributeError
  | Some f =>
      object ← customer (f (training_path self) (customer_params self));
      customer (_function object)
  end.

Definition _train_input_fn (inputs : CustomerInputs) (self : Trainer)
  : M PyObj :=
  _input_fn (train_input_fn inputs) self.

Definition _eval_input_fn (inputs : CustomerInputs) (self : Trainer)
  : M PyObj :=
  _input_fn (eval_input_fn inputs) self.

(** The inner function [_serving_input_fn] of [_experiment_fn]. *)
Definition _serving_input_fn (inputs : CustomerInputs) (self : Trainer)
  : M PyObj :=
  match serving_input_fn inputs with
  | None => raise AttributeError
  | Some f =>
      object ← customer (f (customer_params self));
      customer (_function object)
  end.

(** [Experiment(estimator=..., train_input_fn=..., eval_input_fn=...,
    export_strategies=[make_export_strategy(serving_input_fn=...,
    exports_to_keep=1)], train_steps=..., eval_steps=...,
    **experiment_params)] *)
Record Experiment : Type := mkExperiment {
  exp_estimator : Estimator;
  exp_train_input_fn : M PyObj;
  exp_eval_input_fn : M PyObj;
  exp_serving_input_fn : M PyObj;
  exp_exports_to_keep : nat;
  exp_train_steps : value;
  exp_eval_steps : value;
  exp_params : dict
}.

(** The inner function [_experiment_fn] of [_generate_experiment_fn], for
    the estimator that was built before. *)
Definition _experiment_fn (inputs : CustomerInputs) (self : Trainer)
    (estimator : Estimator) (output_dir : string) : M Experiment :=
  d ← get_dict (customer_params self);
  let experiment_params : dict :=
    filter (fun kv => kv.1 ∈ valid_experiment_keys) d in
  log_info "creating Experiment:";;
  record (EvLogParams experiment_params);;
  mret {| exp_estimator := estimator;
          exp_train_input_fn := _train_input_fn inputs self;
          exp_eval_input_fn := _eval_input_fn inputs self;
          exp_serving_input_fn := _serving_input_fn inputs self;
          exp_exports_to_keep := 1;
          exp_train_steps := train_steps self;
          exp_eval_steps := eval_steps self;
          exp_params := experiment_params |}.

(** [Trainer._generate_experiment_fn] *)
Definition _generate_experiment_fn (inputs : CustomerInputs) (self : Trainer)
  : M (string -> M Experiment) :=
  estimator ← _build_estimator self;
  mret (_experiment_fn inputs self estimator).

(** The inner function [start_ps_server] of [_run_ps_server], up to the
    call of [tf.train.Server], which it then joins for ever: the cluster,
    the job name and the task index that the server is made with. *)
Definition start_ps_server (current_host : string) (hosts : list string)
    (tf_config : TfConfig)
  : result (gmap string (list string) * string * nat) :=
  let cluster_spec := cluster tf_config in
  task_index ← list_index hosts current_host;
  Ok (cluster_spec, "ps", task_index).

(** ** Reading the events *)

Definition is_sleep (e : Event) : bool :=
  match e with
  | EvSleep _ => true
  | _ => false
  end.

Definition is_check_call (e : Event) : bool :=
  match e with
  | EvCheckCall _ => true
  | _ => false
  end.

Definition is_exit (e : Event) : bool :=
  match e with
  | EvOsExit _ => true
  | _ => false
  end.

(** The three steps of [train] whose order matters to the training engine:
    the start of the parameter-server thread, the publication of the
    topology in [os.environ["TF_CONFIG"]], and the start of training. *)
Inductive Milestone : Type :=
| PsStarted
| TopologyPublished
| TrainingStarted.

#[export] Instance Milestone_eq_dec : EqDecision Milestone.
Proof. solve_decision. Defined.

Definition milestone (e : Event) : option Milestone :=
  match e with
  | EvThreadStart _ _ _ => Some PsStarted
  | EvSetEnviron k _ =>
      if decide (k = "TF_CONFIG") then Some TopologyPublished else None
  | EvTrainAndLogExceptions _ => Some TrainingStarted
  | _ => None
  end.

(** The milestones among the events, in the order they happened. *)
Definition milestones (evs : list Event) : list Milestone :=
  omap milestone evs.

(** One probe of the master by [_wait_until_master_is_down]. *)
Definition probe (master : string) : Event :=
  EvCheckCall ["curl"; master +:+ ":2222"].

(** A computation that returns or raises, starts no sub-process, reaches
    no milestone and does not exit. *)
Definition quiet {A} (m : M A) : Prop :=
  forall w,
    match m w with
    | (Returns _, w', evs) | (Raises _, w', evs) =>
        checks w' = checks w /\ milestones evs = [] /\ filter is_exit evs = []
    | _ => False
    end.

(** A computation that, when it returns, has reached the milestones [ms],
    and when it raises, none; it starts no sub-process and does not exit. *)
Definition staged {A} (ms : list Milestone) (m : M A) : Prop :=
  forall w,
    match m w with
    | (Returns _, w', evs) =>
        checks w' = checks w /\ milestones evs = ms /\ filter is_exit evs = []
    | (Raises _, w', evs) =>
        checks w' = checks w /\ milestones evs = [] /\ filter is_exit evs = []
    | _ => False
    end.

(** The state of the process after one more sub-process. *)
Definition probed (w : World) : World :=
  {| heap := heap w; environ := environ w; checks := S (checks w) |}.

Definition is_thread_start (e : Event) : bool :=
  match e with
  | EvThreadStart _ _ _ => true
  | _ => false
  end.

(** A computation all of whose events satisfy [P], however it ends. *)
Definition only {A} (P : Event -> bool) (m : M A) : Prop :=
  forall w, Forall (fun e => P e) (m w).2.

(** The events that the statements of [train] before its [try] can make:
    no training, no export, no sub-process, no sleep and no exit. *)
Definition is_setup_event (e : Event) : bool :=
  match e with
  | EvTrainAndLogExceptions _ | EvExportSavedModel _ _ | EvCheckCall _
  | EvSleep _ | EvOsExit _ => false
  | _ => true
  end.

(** The events of [_wait_until_master_is_down master]: a [curl] of port
    2222 of that host, a sleep of ten seconds, a line of the log. *)
Definition is_wait_event (master : string) (e : Event) : bool :=
  match e with
  | EvCheckCall argv => bool_decide (argv = ["curl"; master +:+ ":2222"])
  | EvSleep secs => bool_decide (secs = 10)
  | EvLogInfo _ => true
  | _ => false
  end.

(** ** Sample inputs *)

(** A customer module that has none of the three callables. *)
Definition no_script : CustomerScript :=
  {| estimator_fn := None; keras_model_fn := None; model_fn := None |}.

(** The trainer of host [h] in the cluster [hs], before [build_tf_config]. *)
Definition trainer_of (h : string) (hs : list string) : Trainer :=
  {| customer_script := no_script;
     current_host := h; hosts := hs;
     train_steps := VInt 1000; eval_steps := VInt 100;
     training_path := "/opt/ml/input/data/training";
     model_path := VStr "/opt/ml/model";
     ouput_path := "/opt/ml/output";
     task_type := None; customer_params := 1 |}.

(** A stand-in for [json.dumps]: it tells the role of the node. *)
Definition sample_dumps (cfg : TfConfig) : string :=
  if decide (type (task cfg) = "master")
  then "tf_config of master" else "tf_config of worker".

(** A run on which the first [k] probes of the master succeed and every
    later one is refused; nothing else fails. *)
Definition master_up_for (k : nat) : Externals :=
  {| download_user_module := Ok tt;
     pip_install_requirements := Ok tt;
     import_user_module := Ok no_script;
     get_bucket_location := Ok None;
     train_and_log_exceptions := Ok tt;
     export_saved_model := Ok tt;
     exit_status := fun n => if decide (n < k) then Some 0 else Some 7;
     json_dumps := sample_dumps;
     json_dumps_text := fun cfg =>
       match decide (type (task cfg) = "master") as d
         return has_nul (if d then "tf_config of master"
                         else "tf_config of worker") = false
       with
       | left _ => eq_refl
       | right _ => eq_refl
       end;
     get_bucket_location_text := fun s H =>
       match H in _ = r
         return match r with Ok (Some _) => has_nul s = false | _ => True end
       with
       | eq_refl => I
       end |}.

(** A run on which the customer module cannot be imported. *)
Definition import_fails : Externals :=
  {| download_user_module := Ok tt;
     pip_install_requirements := Ok tt;
     import_user_module := Raise (ForeignError "ImportError");
     get_bucket_location := Ok None;
     train_and_log_exceptions := Ok tt;
     export_saved_model := Ok tt;
     exit_status := fun _ => Some 7;
     json_dumps := sample_dumps;
     json_dumps_text := fun cfg =>
       match decide (type (task cfg) = "master") as d
         return has_nul (if d then "tf_config of master"
                         else "tf_config of worker") = false
       with
       | left _ => eq_refl
       | right _ => eq_refl
       end;
     get_bucket_location_text := fun s H =>
       match H in _ = r
         return match r with Ok (Some _) => has_nul s = false | _ => True end
       with
       | eq_refl => I
       end |}.

(** A run on which the first [k] probes of the master succeed and [curl]
    cannot be started after that. *)
Definition curl_lost_after (k : nat) : Externals :=
  {| download_user_module := Ok tt;
     pip_install_requirements := Ok tt;
     import_user_module := Ok no_script;
     get_bucket_location := Ok None;
     train_and_log_exceptions := Ok tt;
     export_saved_model := Ok tt;
     exit_status := fun n => if decide (n < k) then Some 0 else None;
     json_dumps := sample_dumps;
     json_dumps_text := fun cfg =>
       match decide (type (task cfg) = "master") as d
         return has_nul (if d then "tf_config of master"
                         else "tf_config of worker") = false
       with
       | left _ => eq_refl
       | right _ => eq_refl
       end;
     get_bucket_location_text := fun s H =>
       match H in _ = r
         return match r with Ok (Some _) => has_nul s = false | _ => True end
       with
       | eq_refl => I
       end |}.

(** A customer module that has both [estimator_fn] and [model_fn]. *)
Definition two_callables : CustomerScript :=
  {| estimator_fn := Some (fun _ _ => Ok 7);
     keras_model_fn := None;
     model_fn := Some (fun _ _ _ _ => Ok 9) |}.

(** The trainer of the single host ["a"] for the customer module [cs]. *)
Definition trainer_for (cs : CustomerScript) : Trainer :=
  {| customer_script := cs;
     current_host := "a"; hosts := ["a"];
     train_steps := VInt 1000; eval_steps := VInt 100;
     training_path := "/opt/ml/input/data/training";
     model_path := VStr "/opt/ml/model";
     ouput_path := "/opt/ml/output";
     task_type := None; customer_params := 1 |}.

(** The environment of host [h] in the cluster [hs], with no
    hyperparameters set. *)
Definition sample_env (h : string) (hs : list string) : TrainingEnvironment :=
  {| env_hyperparameters := 1;
     env_model_dir := "/opt/ml/model";
     env_output_dir := "/opt/ml/output";
     env_channel_dirs := {[ "training" := "/opt/ml/input/data/training" ]};
     env_current_host := h;
     env_hosts := hs |}.

(** A process that has just started. *)
Definition fresh : World :=
  {| heap := ∅; environ := ∅; checks := 0 |}.


(** A process whose hyperparameters set [checkpoint_path]. *)
Definition checkpointed : World :=
  {| heap := {[ 1 := {[ "checkpoint_path" := VStr "/opt/ml/checkpoints" ]} ]};
     environ := ∅; checks := 0 |}.

(** A process whose hyperparameter [s3_checkpoint_save_timeout] is a
    string that holds a NUL byte. *)
Definition nul_timeout : World :=
  {| heap := {[ 1 := {[ "s3_checkpoint_save_timeout" :=
                          VStr (String Ascii.zero EmptyString) ]} ]};
     environ := ∅; checks := 0 |}.

(** * Properties *)

(** ** Python primitives *)

Lemma list_index_elem (l : list string) (x : string) :
  x ∈ l ->
  exists n, list_index l x = Ok n /\ l !! n = Some x /\
            forall j, j < n -> l !! j <> Some x.
Proof.
  induction l as [|y l IH]; intros Hin.
  - by apply elem_of_nil in Hin.
  - cbn [list_index]. destruct (decide (y = x)) as [->|Hne].
    + exists 0. split_and!; [done..|]. intros j Hj. lia.
    + apply elem_of_cons in Hin as [->|Hin]; [done|].
      destruct (IH Hin) as (n & -> & Hn & Hfirst).
      exists (S n). split_and!; [done..|].
      intros [|j] Hj; cbn; [congruence|]. apply Hfirst. lia.
Qed.

Lemma list_index_not_elem (l : list string) (x : string) :
  x ∉ l -> list_index l x = Raise ValueError.
Proof.
  induction l as [|y l IH]; intros Hin; [done|].
  apply not_elem_of_cons in Hin as [Hne Hin].
  cbn [list_index]. rewrite decide_False by done. by rewrite IH.
Qed.

Lemma list_ascii_of_string_append (s1 s2 : string) :
  String.list_ascii_of_string (s1 +:+ s2) =
    String.list_ascii_of_string s1 ++ String.list_ascii_of_string s2.
Proof. induction s1 as [|c s1 IH]; simpl; [done|]. by f_equal. Qed.

(** [(h + ":2222")[:-5] = h]: the five bytes of [":2222"] are five
    characters, whatever [h] holds. *)
Lemma drop_last_port (h : string) : drop_last 5 (h +:+ ":2222") = h.
Proof.
  unfold drop_last. rewrite list_ascii_of_string_append, rev_app_distr.
  cbn [String.list_ascii_of_string rev app drop_chars skip_continuation
       is_continuation andb negb].
  by rewrite rev_involutive, String.string_of_list_ascii_of_string.
Qed.

(** ** The topology builder *)

Lemma contains_singleton (x h : string) :
  contains x [h] = bool_decide (x = h).
Proof.
  unfold contains. simpl. apply bool_decide_ext.
  rewrite list_elem_of_singleton. done.
Qed.

Lemma task_map_lookup_master (masters workers : list string)
    (ps : option (list string)) :
  task_map_lookup masters workers ps "master" = Ok masters.
Proof. unfold task_map_lookup. destruct (truthy ps); by simplify_map_eq. Qed.

Lemma task_map_lookup_worker (masters workers : list string)
    (ps : option (list string)) :
  task_map_lookup masters workers ps "worker" = Ok workers.
Proof. unfold task_map_lookup. destruct (truthy ps); by simplify_map_eq. Qed.

(** What [build_tf_config] returns when the current host is one of the
    hosts: the role, the position in the role's host list, and the three
    entries of the cluster. *)
Lemma build_tf_config_ok (self : Trainer) (h : string) (t : list string) :
  hosts self = h :: t -> current_host self ∈ h :: t ->
  exists cfg,
    build_tf_config self =
      (set_task_type self (_get_task_type self [h]), Ok cfg) /\
    type (task cfg) = _get_task_type self [h] /\
    list_index (if bool_decide (current_host self = h) then [h] else t)
               (current_host self) = Ok (index (task cfg)) /\
    cluster cfg !! "master" = Some [h +:+ ":2222"] /\
    cluster cfg !! "ps" =
      (if decide (1 < length (h :: t))
       then Some ((fun x => x +:+ ":2223") <$> h :: t) else None) /\
    cluster cfg !! "worker" =
      (if decide (1 < length (h :: t))
       then Some ((fun x => x +:+ ":2222") <$> t) else None) /\
    (forall k, k <> "master" -> k <> "ps" -> k <> "worker" ->
               cluster cfg !! k = None) /\
    environment cfg = "cloud".
Proof.
  intros Hh Hin. unfold build_tf_config, _get_task_type.
  rewrite Hh. change (take 1 (h :: t)) with [h].
  rewrite !contains_singleton.
  set (x := current_host self) in *.
  cbn [set_task_type task_type default from_option id current_host].
  fold x. case_bool_decide as Hx.
  - rewrite task_map_lookup_master.
    cbn [mbind result_bind list_index]. rewrite Hx.
    destruct (decide (h = h)); [|done].
    eexists. split; [reflexivity|]. cbn [task type index cluster environment].
    destruct t as [|h1 t]; cbn [length drop]; simpl decide;
      (split_and!; [done..| |done]); intros k ???; by simplify_map_eq.
  - apply elem_of_cons in Hin as [?|Hin]; [done|].
    destruct (list_index_elem _ _ Hin) as (n & Hn & _).
    rewrite task_map_lookup_worker. change (drop 1 (h :: t)) with t.
    cbn [mbind result_bind]. rewrite Hn. eexists. split; [reflexivity|].
    cbn [task type index cluster environment].
    destruct t as [|h1 t]; [by apply elem_of_nil in Hin|].
    cbn [length]; simpl decide.
    split_and!; [done..| |done]. intros k ???; by simplify_map_eq.
Qed.


Example build_tf_config_abc_b :
  (build_tf_config (trainer_of "b" ["a"; "b"; "c"])).2 =
  Ok {| cluster := <["worker" := ["b:2222"; "c:2222"] ]>
                   (<["ps" := ["a:2223"; "b:2223"; "c:2223"] ]>
                   (<["master" := ["a:2222"] ]> ∅));
        task := {| index := 0; type := "worker" |};
        environment := "cloud" |}.
Proof. vm_compute. reflexivity. Qed.

(** C1: for every host list [H = h :: t] and every current host in [H],
    [build_tf_config] returns a topology; when [len(H) > 1] its
    [cluster.master] is the singleton [[H[0] + ":2222"]], its
    [cluster.worker] is [[x + ":2222" for x in H[1:]]] in order and its
    [cluster.ps] is [[x + ":2223" for x in H]] in order; when [len(H) = 1]
    there is no [ps] entry. *)
Theorem build_tf_config_cluster (self : Trainer) (h : string)
    (t : list string) :
  hosts self = h :: t -> current_host self ∈ hosts self ->
  exists cfg,
    (build_tf_config self).2 = Ok cfg /\
    (1 < length (hosts self) ->
       cluster cfg !! "master" = Some [h +:+ ":2222"] /\
       cluster cfg !! "worker" = Some ((fun x => x +:+ ":2222") <$> t) /\
       cluster cfg !! "ps" =
         Some ((fun x => x +:+ ":2223") <$> hosts self)) /\
    (length (hosts self) = 1 -> cluster cfg !! "ps" = None).
Proof.
  intros Hh Hin. rewrite Hh in Hin.
  destruct (build_tf_config_ok self h t Hh Hin)
    as (cfg & -> & _ & _ & Hm & Hps & Hw & _).
  exists cfg. split; [done|]. rewrite Hh. split; intros Hlen.
  - by rewrite decide_True in Hps, Hw by done.
  - rewrite decide_False in Hps; [done|lia].
Qed.

Lemma build_tf_config_cluster_witness :
  exists cfg,
    (build_tf_config (trainer_of "b" ["a"; "b"; "c"])).2 = Ok cfg /\
    (1 < length ["a"; "b"; "c"] ->
       cluster cfg !! "master" = Some ["a:2222"] /\
       cluster cfg !! "worker" = Some ["b:2222"; "c:2222"] /\
       cluster cfg !! "ps" = Some ["a:2223"; "b:2223"; "c:2223"]) /\
    (length ["a"; "b"; "c"] = 1 -> cluster cfg !! "ps" = None).
Proof.
  apply (build_tf_config_cluster (trainer_of "b" ["a"; "b"; "c"])
           "a" ["b"; "c"]).
  - reflexivity.
  - apply (bool_decide_unpack _). vm_compute. reflexivity.
Defined.

(** C2 (as the code has it): for every host list [H] and every [x] not in
    [H], building the topology for current host [x] fails, and the failure
    is the [ValueError] of [workers.index(x)]; by then the trainer's
    [task_type] has been set to ["worker"]. *)
Theorem build_tf_config_unknown_host (self : Trainer) :
  current_host self ∉ hosts self ->
  build_tf_config self = (set_task_type self "worker", Raise ValueError).
Proof.
  intros Hin. unfold build_tf_config, _get_task_type.
  assert (Hc : contains (current_host self) (take 1 (hosts self)) = false).
  { unfold contains. apply bool_decide_eq_false_2. intros H.
    apply Hin. by eapply subseteq_take. }
  rewrite Hc.
  cbn [set_task_type task_type default from_option id current_host].
  rewrite task_map_lookup_worker. cbn [mbind result_bind].
  rewrite list_index_not_elem; [done|].
  intros H. apply Hin. by eapply subseteq_drop.
Qed.

Lemma build_tf_config_unknown_host_witness :
  build_tf_config (trainer_of "b" ["a"]) =
    (set_task_type (trainer_of "b" ["a"]) "worker", Raise ValueError).
Proof.
  apply (build_tf_config_unknown_host (trainer_of "b" ["a"])).
  apply (bool_decide_unpack _). vm_compute. reflexivity.
Defined.

(** C2 as stated fails: with hosts [["a"]] and current host ["b"] the
    exception that comes out is not of class [ConfigurationError]. *)
Lemma build_tf_config_unknown_host_not_ConfigurationError :
  exists e, (build_tf_config (trainer_of "b" ["a"])).2 = Raise e /\
            exn_class e <> "ConfigurationError".
Proof. exists ValueError. split; [vm_compute; reflexivity | discriminate]. Qed.

(** C3: for every non-empty host list [H = h :: t] and every current host
    in [H], [build_tf_config] gives the host one role, ["master"] exactly
    when it is [H[0]] and ["worker"] otherwise (never ["ps"]);
    [task.index] is the first position of the host in that role's host
    list ([H[:1]] for the master, [H[1:]] for a worker), which is also its
    position in that role's entry of the cluster; for the master it is 0. *)
Theorem build_tf_config_task (self : Trainer) (h : string)
    (t : list string) :
  hosts self = h :: t -> current_host self ∈ hosts self ->
  exists self' cfg,
    build_tf_config self = (self', Ok cfg) /\
    task_type self' = Some (type (task cfg)) /\
    (type (task cfg) = "master" <-> current_host self = h) /\
    (type (task cfg) = "worker" <-> current_host self <> h) /\
    type (task cfg) <> "ps" /\
    (let role := if decide (type (task cfg) = "master") then [h] else t in
     role !! index (task cfg) = Some (current_host self) /\
     (forall j, j < index (task cfg) ->
                role !! j <> Some (current_host self)) /\
     cluster cfg !! type (task cfg) =
       Some ((fun x => x +:+ ":2222") <$> role)) /\
    (type (task cfg) = "master" -> index (task cfg) = 0).
Proof.
  intros Hh Hin. rewrite Hh in Hin.
  destruct (build_tf_config_ok self h t Hh Hin)
    as (cfg & -> & Hty & Hidx & Hm & _ & Hw & _).
  exists (set_task_type self (_get_task_type self [h])), cfg.
  rewrite Hty. unfold _get_task_type in *. rewrite contains_singleton in *.
  split; [done|]. split; [done|].
  case_bool_decide as Hx.
  - cbn [list_index] in Hidx.
    rewrite decide_True in Hidx by done. injection Hidx as <-.
    rewrite decide_True by done. cbn [lookup list_lookup].
    split_and!; try done; try (clear; naive_solver).
    + by rewrite Hx.
    + intros j Hj. lia.
  - apply elem_of_cons in Hin as [?|Hin]; [done|].
    destruct (list_index_elem _ _ Hin) as (n & Hn & Hlook & Hfirst).
    rewrite Hn in Hidx. injection Hidx as <-.
    rewrite decide_False by done.
    rewrite decide_True in Hw by (destruct t; [by apply elem_of_nil in Hin
                                              | cbn; lia]).
    split_and!; try done; try (clear -Hx; naive_solver).
Qed.

Lemma build_tf_config_task_witness :
  exists self' cfg,
    build_tf_config (trainer_of "c" ["a"; "b"; "c"]) = (self', Ok cfg) /\
    task_type self' = Some (type (task cfg)) /\
    (type (task cfg) = "master" <-> "c" = "a") /\
    (type (task cfg) = "worker" <-> "c" <> "a") /\
    type (task cfg) <> "ps" /\
    (let role := if decide (type (task cfg) = "master")
                 then ["a"] else ["b"; "c"] in
     role !! index (task cfg) = Some "c" /\
     (forall j, j < index (task cfg) -> role !! j <> Some "c") /\
     cluster cfg !! type (task cfg) =
       Some ((fun x => x +:+ ":2222") <$> role)) /\
    (type (task cfg) = "master" -> index (task cfg) = 0).
Proof.
  apply (build_tf_config_task (trainer_of "c" ["a"; "b"; "c"])
           "a" ["b"; "c"]).
  - reflexivity.
  - apply (bool_decide_unpack _). vm_compute. reflexivity.
Defined.

Example build_tf_config_task_abc_c :
  (cfg ← (build_tf_config (trainer_of "c" ["a"; "b"; "c"])).2;
   Ok (task cfg)) = Ok {| index := 1; type := "worker" |}.
Proof. vm_compute. reflexivity. Qed.

(** C6 (as the code has it): for the single-host cluster [hosts = ["a"]],
    [current_host = "a"], the role is master, the task is
    [{index: 0, type: "master"}], and the cluster holds the [master] entry
    only: there is no [ps] entry and no [worker] entry. *)
Theorem build_tf_config_single_host (self : Trainer) :
  hosts self = ["a"] -> current_host self = "a" ->
  build_tf_config self =
    (set_task_type self "master",
     Ok {| cluster := {["master" := ["a:2222"] ]};
           task := {| index := 0; type := "master" |};
           environment := "cloud" |}).
Proof.
  intros Hh Hc. unfold build_tf_config, _get_task_type.
  rewrite Hh, Hc.
  change (contains "a" (take 1 ["a"])) with true.
  cbn [set_task_type current_host task_type]. rewrite Hc.
  f_equal.
Qed.

Lemma build_tf_config_single_host_witness :
  build_tf_config (trainer_of "a" ["a"]) =
    (set_task_type (trainer_of "a" ["a"]) "master",
     Ok {| cluster := {["master" := ["a:2222"] ]};
           task := {| index := 0; type := "master" |};
           environment := "cloud" |}).
Proof.
  apply (build_tf_config_single_host (trainer_of "a" ["a"])); reflexivity.
Defined.

(** C6 as stated fails: in the topology built for the single host ["a"]
    the [worker] key is absent; it does not hold the empty list. *)
Lemma build_tf_config_single_host_no_worker_key :
  exists cfg,
    (build_tf_config (trainer_of "a" ["a"])).2 = Ok cfg /\
    cluster cfg !! "worker" = None /\
    cluster cfg !! "worker" <> Some [].
Proof.
  eexists. split; [vm_compute; reflexivity|]. split; [reflexivity|].
  discriminate.
Qed.

(** C10: for every non-empty host list [H = h :: t] and every current host
    in [H], [_get_master] applied to the topology that [build_tf_config]
    returns gives back [H[0]]: the suffix [":2222"] that the builder
    appends has the five characters that [_get_master] strips. *)
Theorem _get_master_build_tf_config (self : Trainer) (h : string)
    (t : list string) :
  hosts self = h :: t -> current_host self ∈ hosts self ->
  exists cfg,
    (build_tf_config self).2 = Ok cfg /\
    cluster cfg !! "master" = Some [format_host_port h "2222"] /\
    String.length ":2222" = 5 /\
    _get_master cfg = Ok h.
Proof.
  intros Hh Hin. rewrite Hh in Hin.
  destruct (build_tf_config_ok self h t Hh Hin)
    as (cfg & -> & _ & _ & Hm & _).
  exists cfg. split_and!; [done..|].
  unfold _get_master. rewrite Hm.
  f_equal. exact (drop_last_port h).
Qed.

Lemma _get_master_build_tf_config_witness :
  exists cfg,
    (build_tf_config (trainer_of "b" ["a"; "b"; "c"])).2 = Ok cfg /\
    cluster cfg !! "master" = Some [format_host_port "a" "2222"] /\
    String.length ":2222" = 5 /\
    _get_master cfg = Ok "a".
Proof.
  apply (_get_master_build_tf_config (trainer_of "b" ["a"; "b"; "c"])
           "a" ["b"; "c"]).
  - reflexivity.
  - apply (bool_decide_unpack _). vm_compute. reflexivity.
Defined.

(** ** The liveness monitor *)

(** One turn of the loop, once the status of its probe is known. *)
Ltac wait_turn H :=
  cbn [_wait_until_master_is_down];
  unfold mbind, M_bind, try_except, check_call, sleep, record;
  rewrite H.

Lemma wait_step_up (ext : Externals) (master : string) (fuel : nat)
    (w : World) :
  exit_status ext (checks w) = Some 0 ->
  _wait_until_master_is_down ext master (S fuel) w =
    after [probe master; EvSleep 10]
          (_wait_until_master_is_down ext master fuel (probed w)).
Proof.
  intros H. wait_turn H.
  cbn. by destruct (_wait_until_master_is_down _ _ _ _) as [[[] ?] ?].
Qed.

Lemma wait_step_down (ext : Externals) (master : string) (fuel : nat)
    (w : World) (c : nat) :
  exit_status ext (checks w) = Some (S c) ->
  _wait_until_master_is_down ext master (S fuel) w =
    (Returns tt, probed w,
     [probe master;
      EvLogInfo ("master " +:+ master +:+
                 " is down, stopping parameter server")]).
Proof.
  intros H. wait_turn H. reflexivity.
Qed.

Lemma wait_step_no_curl (ext : Externals) (master : string) (fuel : nat)
    (w : World) :
  exit_status ext (checks w) = None ->
  _wait_until_master_is_down ext master (S fuel) w =
    (Raises OSError, probed w, [probe master]).
Proof.
  intros H. wait_turn H. reflexivity.
Qed.

Lemma sleeps_in_rounds (master : string) (k : nat) :
  filter is_sleep (concat (replicate k [probe master; EvSleep 10])) =
  replicate k (EvSleep 10).
Proof.
  induction k as [|k IH]; [done|]. cbn [replicate concat].
  rewrite filter_app, IH. reflexivity.
Qed.

Lemma probes_in_rounds (master : string) (k : nat) :
  length (filter is_check_call
            (concat (replicate k [probe master; EvSleep 10]))) = k.
Proof.
  induction k as [|k IH]; [done|]. cbn [replicate concat].
  rewrite filter_app, length_app, IH. reflexivity.
Qed.

(** The monitor on a master that answers [k] probes and fails the next. *)
Lemma wait_rounds (ext : Externals) (master : string) (k : nat) :
  forall (fuel : nat) (w : World) (c : nat),
    (forall i, i < k -> exit_status ext (checks w + i) = Some 0) ->
    exit_status ext (checks w + k) = Some (S c) ->
    k < fuel ->
    _wait_until_master_is_down ext master fuel w =
      (Returns tt,
       {| heap := heap w; environ := environ w;
          checks := checks w + S k |},
       concat (replicate k [probe master; EvSleep 10]) ++
       [probe master;
        EvLogInfo ("master " +:+ master +:+
                   " is down, stopping parameter server")])%list.
Proof.
  induction k as [|k IH]; intros fuel w c Hup Hdown Hfuel;
    (destruct fuel as [|fuel]; [lia|]).
  - rewrite Nat.add_0_r in Hdown. rewrite (wait_step_down _ _ _ _ c Hdown).
    unfold probed. by rewrite Nat.add_1_r.
  - rewrite wait_step_up by (rewrite <- (Nat.add_0_r (checks w)); apply Hup; lia).
    rewrite (IH fuel (probed w) c); cbn [probed checks heap environ].
    + unfold after. cbn. do 2 f_equal. f_equal. lia.
    + intros i Hi. rewrite Nat.add_succ_comm. apply Hup. lia.
    + by rewrite Nat.add_succ_comm.
    + lia.
Qed.

(** C4: when the master answers [k] probes and the next probe fails, the
    monitor returns (given fuel for [k + 1] turns of its loop) right after
    the failed probe: its events are [k] rounds of a probe followed by one
    sleep of 10 seconds, then the failed probe and the log line. So it
    sleeps exactly [k] times, always 10 seconds, probes exactly [k + 1]
    times, and the last probe, the failed one, is followed by no other
    probe and no sleep. *)
Theorem wait_until_master_is_down_rounds (ext : Externals) (master : string)
    (k fuel : nat) (w : World) (c : nat) :
  (forall i, i < k -> exit_status ext (checks w + i) = Some 0) ->
  exit_status ext (checks w + k) = Some (S c) ->
  k < fuel ->
  exists w' evs,
    _wait_until_master_is_down ext master fuel w = (Returns tt, w', evs) /\
    evs = (concat (replicate k [probe master; EvSleep 10]) ++
           [probe master;
            EvLogInfo ("master " +:+ master +:+
                       " is down, stopping parameter server")])%list /\
    filter is_sleep evs = replicate k (EvSleep 10) /\
    length (filter is_check_call evs) = S k /\
    checks w' = checks w + S k.
Proof.
  intros Hup Hdown Hfuel. eexists _, _. split.
  { by eapply wait_rounds. }
  split; [reflexivity|]. split_and!.
  - rewrite filter_app, sleeps_in_rounds. cbn. by rewrite app_nil_r.
  - rewrite filter_app, length_app, probes_in_rounds.
    change (length (filter is_check_call [probe master; EvLogInfo _]))
      with 1. lia.
  - reflexivity.
Qed.

Lemma wait_until_master_is_down_rounds_witness :
  exists w' evs,
    _wait_until_master_is_down (master_up_for 1) "a" 2 fresh =
      (Returns tt, w', evs) /\
    evs = [probe "a"; EvSleep 10; probe "a";
           EvLogInfo "master a is down, stopping parameter server"] /\
    filter is_sleep evs = [EvSleep 10] /\
    length (filter is_check_call evs) = 2 /\
    checks w' = 2.
Proof.
  apply (wait_until_master_is_down_rounds (master_up_for 1) "a" 1 2 fresh 6).
  - intros i Hi. replace i with 0 by lia. reflexivity.
  - reflexivity.
  - lia.
Defined.

(** ** The trainer and the hyperparameter dictionary *)

(** The dictionary at [l] after [Trainer.__init__] has put its two defaults
    in. *)
Lemma set_environ_accepted (k v : string) (w : World) :
  environ_accepts k v = true ->
  set_environ k v w = (Returns tt, environ_set k v w, [EvSetEnviron k v]).
Proof. intros H. unfold set_environ. by rewrite H. Qed.

Lemma set_environ_refused (k v : string) (w : World) :
  environ_accepts k v = false ->
  set_environ k v w = (Raises ValueError, w, []).
Proof. intros H. unfold set_environ. by rewrite H. Qed.

Lemma set_environ_Returns (k v : string) (w w1 : World) (u : unit)
    (evs : list Event) :
  set_environ k v w = (Returns u, w1, evs) ->
  environ_accepts k v = true /\ w1 = environ_set k v w /\
  evs = [EvSetEnviron k v].
Proof.
  unfold set_environ. destruct (environ_accepts k v); [|discriminate].
  by intros [= _ <- <-].
Qed.

(** A value is refused for [S3_REQUEST_TIMEOUT_MSEC] exactly when it holds
    a NUL byte. *)
Lemma environ_accepts_timeout (v : string) :
  environ_accepts "S3_REQUEST_TIMEOUT_MSEC" v = negb (has_nul v).
Proof. reflexivity. Qed.

(** The run of [_configure_s3_file_system]. *)
Lemma _configure_s3_file_system_run (ext : Externals) (p : string)
    (w : World) :
  _configure_s3_file_system ext p w =
    match get_bucket_location ext with
    | Raise e => (Raises e, w, [EvGetBucketLocation p])
    | Ok (Some (String c r)) =>
        if environ_accepts "S3_REGION" (String c r)
        then (Returns tt,
              environ_set "S3_USE_HTTPS" "1"
                (environ_set "S3_REGION" (String c r) w),
              [EvGetBucketLocation p;
               EvSetEnviron "S3_REGION" (String c r);
               EvSetEnviron "S3_USE_HTTPS" "1"])
        else (Raises ValueError, w, [EvGetBucketLocation p])
    | Ok _ =>
        (Returns tt, environ_set "S3_USE_HTTPS" "1" w,
         [EvGetBucketLocation p; EvSetEnviron "S3_USE_HTTPS" "1"])
    end.
Proof.
  unfold _configure_s3_file_system, call, mbind, M_bind, record, lift.
  destruct (get_bucket_location ext) as [[[|c r]|]|e]; cbn [mret M_ret raise
    after fst snd app]; try reflexivity.
  destruct (environ_accepts "S3_REGION" (String c r)) eqn:Hr.
  - rewrite (set_environ_accepted _ _ _ Hr). cbn [after fst snd app].
    by rewrite set_environ_accepted.
  - by rewrite (set_environ_refused _ _ _ Hr).
Qed.

Lemma __init___heap (ext : Externals) (cs : CustomerScript)
    (h : string) (hs : list string) (ts es : value) (tp : string)
    (mp : value) (op : string) (mef : value) (cp : option loc)
    (scs : value) (w : World) :
  let l := default default_customer_params cp in
  let d0 := heap w !!! l in
  let d1 := <["min_eval_frequency" := get d0 "min_eval_frequency" mef]> d0 in
  heap (__init__ ext cs h hs ts es tp mp op mef cp scs w).1.2 =
    <[l := <["save_checkpoints_secs" :=
               get d1 "save_checkpoints_secs" scs]> d1]> (heap w).
Proof.
  intros l d0 d1. unfold __init__, mbind, M_bind, get_dict, setitem.
  fold l. cbn [heap environ checks after fst snd].
  rewrite lookup_total_insert_eq, insert_insert_eq. fold d0 d1.
  destruct mp as [z|p]; [reflexivity|].
  destruct (startswith "s3://" p); [|reflexivity].
  rewrite _configure_s3_file_system_run.
  destruct (get_bucket_location ext) as [[[|c r]|]|e]; try reflexivity.
  by destruct (environ_accepts "S3_REGION" (String c r)).
Qed.

Lemma __init___self (ext : Externals) (cs : CustomerScript)
    (h : string) (hs : list string) (ts es : value) (tp : string)
    (mp : value) (op : string) (mef : value) (cp : option loc)
    (scs : value) (w : World) (self : Trainer) :
  (__init__ ext cs h hs ts es tp mp op mef cp scs w).1.1 = Returns self ->
  self = {| customer_script := cs; current_host := h; hosts := hs;
            train_steps := ts; eval_steps := es; training_path := tp;
            model_path := mp; ouput_path := op; task_type := None;
            customer_params := default default_customer_params cp |}.
Proof.
  unfold __init__, mbind, M_bind, get_dict, setitem.
  cbn [heap environ checks after fst snd].
  destruct mp as [z|p]; [discriminate|].
  destruct (startswith "s3://" p); [|by intros [= <-]].
  rewrite _configure_s3_file_system_run.
  destruct (get_bucket_location ext) as [[[|c r]|]|e];
    try destruct (environ_accepts "S3_REGION" (String c r)); cbn;
    by intros [= <-].
Qed.

(** C9 (as the code has it): constructing a [Trainer] writes into the
    caller's hyperparameter dictionary, the very object the trainer then
    holds: [min_eval_frequency] and [save_checkpoints_secs] get their
    defaults when absent; every entry the dictionary had keeps its value
    and no other dictionary changes. After construction, [build_tf_config]
    assigns [task_type] and leaves every other field of the trainer as it
    was. *)
Theorem trainer_configuration_frame :
  (forall ext cs h hs ts es tp mp op mef cp scs w,
     let l := default default_customer_params cp in
     let before := heap w !!! l in
     let r := __init__ ext cs h hs ts es tp mp op mef cp scs w in
     let now := heap r.1.2 !!! l in
     now !! "min_eval_frequency" =
       Some (get before "min_eval_frequency" mef) /\
     now !! "save_checkpoints_secs" =
       Some (get before "save_checkpoints_secs" scs) /\
     (forall k v, before !! k = Some v -> now !! k = Some v) /\
     (forall k, k <> "min_eval_frequency" -> k <> "save_checkpoints_secs" ->
                now !! k = before !! k) /\
     (forall l', l' <> l -> heap r.1.2 !! l' = heap w !! l') /\
     (forall self, r.1.1 = Returns self ->
        customer_params self = l /\ task_type self = None /\
        train_steps self = ts /\ eval_steps self = es /\
        training_path self = tp /\ model_path self = mp /\
        ouput_path self = op)) /\
  (forall self,
     let self' := (build_tf_config self).1 in
     task_type self' = Some (_get_task_type self (take 1 (hosts self))) /\
     train_steps self' = train_steps self /\
     eval_steps self' = eval_steps self /\
     training_path self' = training_path self /\
     model_path self' = model_path self /\
     ouput_path self' = ouput_path self /\
     customer_params self' = customer_params self /\
     hosts self' = hosts self /\
     current_host self' = current_host self).
Proof.
  split_and!.
  - intros ext cs h hs ts es tp mp op mef cp scs w l before r now.
    assert (Hnow : now = <["save_checkpoints_secs" :=
                             get before "save_checkpoints_secs" scs]>
                         (<["min_eval_frequency" :=
                             get before "min_eval_frequency" mef]> before)).
    { unfold now, r. rewrite __init___heap, lookup_total_insert_eq.
      fold l before. f_equal. unfold get. by rewrite lookup_insert_ne. }
    split_and!.
    + rewrite Hnow. by rewrite lookup_insert_ne, lookup_insert_eq.
    + rewrite Hnow. by rewrite lookup_insert_eq.
    + intros k v Hk. rewrite Hnow. unfold get.
      destruct (decide (k = "save_checkpoints_secs")) as [->|?].
      { by rewrite lookup_insert_eq, Hk. }
      rewrite lookup_insert_ne by done.
      destruct (decide (k = "min_eval_frequency")) as [->|?].
      { by rewrite lookup_insert_eq, Hk. }
      by rewrite lookup_insert_ne.
    + intros k ? ?. rewrite Hnow. by rewrite !lookup_insert_ne.
    + intros l' ?. unfold r. rewrite __init___heap. fold l.
      by rewrite lookup_insert_ne.
    + intros self Hself. apply __init___self in Hself. by subst self.
  - intros self. done.
Qed.

(** C9 as stated fails twice: constructing a trainer on an empty
    hyperparameter dictionary leaves two entries in that dictionary, and
    [build_tf_config] changes the trainer's [task_type]. *)
Lemma trainer_configuration_is_written :
  let w' := (__init__ (master_up_for 0) no_script "a" ["a"]
               (VInt 1000) (VInt 100) "/opt/ml/input/data/training"
               (VStr "/opt/ml/model") "/opt/ml/output"
               (VInt 1000) (Some 1) (VInt 300) fresh).1.2 in
  (heap fresh !!! 1 : dict) = ∅ /\
  heap w' !!! 1 =
    ({[ "min_eval_frequency" := VInt 1000;
        "save_checkpoints_secs" := VInt 300 ]} : dict) /\
  (heap w' !!! 1 : dict) <> heap fresh !!! 1 /\
  task_type (trainer_of "a" ["a"]) = None /\
  task_type (build_tf_config (trainer_of "a" ["a"])).1 = Some "master" /\
  task_type (build_tf_config (trainer_of "a" ["a"])).1 <>
    task_type (trainer_of "a" ["a"]).
Proof.
  split_and!; try reflexivity; [|discriminate].
  intros H. apply (f_equal (fun d : dict => d !! "min_eval_frequency")) in H.
  vm_compute in H. discriminate.
Qed.

(** ** The order of events in [train] *)

Lemma milestones_app (evs1 evs2 : list Event) :
  milestones (evs1 ++ evs2) = milestones evs1 ++ milestones evs2.
Proof. apply omap_app. Qed.

Lemma quiet_ret {A} (a : A) : quiet (mret a).
Proof. intros w. done. Qed.

Lemma quiet_raise {A} (e : exn) : quiet (@raise A e).
Proof. intros w. done. Qed.

Lemma quiet_lift {A} (r : result A) : quiet (lift r).
Proof. destruct r; [apply quiet_ret | apply quiet_raise]. Qed.

Lemma quiet_record (e : Event) :
  milestone e = None -> is_exit e = false -> quiet (record e).
Proof.
  intros Hm Hx w. unfold record, milestones. cbn [omap list_omap].
  rewrite Hm. split_and!; [done..|].
  rewrite filter_cons_False; [done|]. rewrite Hx. by intros [].
Qed.

Lemma quiet_bind {A B} (m : M A) (f : A -> M B) :
  quiet m -> (forall a, quiet (f a)) -> quiet (m ≫= f).
Proof.
  intros Hm Hf w. unfold mbind, M_bind. specialize (Hm w).
  destruct (m w) as [[[a|e|c|] w1] evs1]; try done.
  destruct Hm as (Hc & Hms & Hx). specialize (Hf a w1).
  unfold after. destruct (f a w1) as [[[b|e|c|] w2] evs2]; try done;
    destruct Hf as (Hc2 & Hms2 & Hx2); cbn [fst snd];
    rewrite milestones_app, filter_app, Hms, Hms2, Hx, Hx2;
    (split_and!; [congruence|done..]).
Qed.

Lemma staged_bind {A B} (ms : list Milestone) (m : M A) (f : A -> M B) :
  quiet m -> (forall a, staged ms (f a)) -> staged ms (m ≫= f).
Proof.
  intros Hm Hf w. unfold mbind, M_bind. specialize (Hm w).
  destruct (m w) as [[[a|e|c|] w1] evs1]; try done.
  destruct Hm as (Hc & Hms & Hx). specialize (Hf a w1).
  unfold after. destruct (f a w1) as [[[b|e|c|] w2] evs2]; try done;
    destruct Hf as (Hc2 & Hms2 & Hx2); cbn [fst snd];
    rewrite milestones_app, filter_app, Hms, Hms2, Hx, Hx2;
    (split_and!; [congruence|done..]).
Qed.

Lemma quiet_call {A} (e : Event) (r : result A) :
  milestone e = None -> is_exit e = false -> quiet (call e r).
Proof.
  intros. apply quiet_bind; [by apply quiet_record|].
  intros _. apply quiet_lift.
Qed.

Lemma quiet_get_dict (l : loc) : quiet (get_dict l).
Proof. intros w. done. Qed.

Lemma quiet_setitem (l : loc) (k : string) (v : value) :
  quiet (setitem l k v).
Proof. intros w. done. Qed.

Lemma quiet_set_environ (k v : string) :
  k <> "TF_CONFIG" -> quiet (set_environ k v).
Proof.
  intros Hk w. unfold set_environ. destruct (environ_accepts k v); [|done].
  unfold milestones. cbn [omap list_omap milestone].
  rewrite decide_False by done. done.
Qed.

Create HintDb quiet.
#[local] Hint Resolve quiet_ret quiet_raise quiet_lift quiet_get_dict
  quiet_setitem quiet_bind quiet_call quiet_record quiet_set_environ : quiet.
#[local] Hint Extern 1 (_ = _) => reflexivity : quiet.
#[local] Hint Extern 1 (_ <> _) => discriminate : quiet.
#[local] Hint Extern 2 (quiet (match ?x with _ => _ end)) =>
  destruct x : quiet.
#[local] Hint Extern 2 (quiet (if ?b then _ else _)) => destruct b : quiet.

Lemma quiet__configure_s3_file_system (ext : Externals) (p : string) :
  quiet (_configure_s3_file_system ext p).
Proof. unfold _configure_s3_file_system. auto 8 with quiet. Qed.

#[local] Hint Resolve quiet__configure_s3_file_system : quiet.

Lemma quiet___init__ (ext : Externals) (cs : CustomerScript)
    (h : string) (hs : list string) (ts es : value) (tp : string)
    (mp : value) (op : string) (mef : value) (cp : option loc)
    (scs : value) :
  quiet (__init__ ext cs h hs ts es tp mp op mef cp scs).
Proof. unfold __init__. auto 12 with quiet. Qed.

#[local] Hint Resolve quiet___init__ : quiet.

Lemma save_tf_config_env_var_run (ext : Externals) (cfg : TfConfig)
    (w : World) :
  save_tf_config_env_var ext cfg w =
    (Returns tt,
     {| heap := heap w;
        environ := <["TF_CONFIG" := json_dumps ext cfg]> (environ w);
        checks := checks w |},
     [EvSetEnviron "TF_CONFIG" (json_dumps ext cfg);
      EvLogInfo "----------------------TF_CONFIG--------------------------";
      EvLogInfo (json_dumps ext cfg);
      EvLogInfo "---------------------------------------------------------"]).
Proof.
  unfold save_tf_config_env_var, mbind, M_bind, log_info, record,
    get_environ.
  rewrite set_environ_accepted
    by (unfold environ_accepts; by rewrite json_dumps_text).
  cbn [after fst snd heap environ checks environ_set].
  by rewrite lookup_insert_eq.
Qed.

(** The milestones that the setup of [train] reaches in a cluster. *)
Lemma train_setup_staged (ext : Externals) (env : TrainingEnvironment) :
  staged ((if decide (1 < length (env_hosts env)) then [PsStarted] else [])
          ++ [TopologyPublished])
         (train_setup ext env).
Proof.
  unfold train_setup.
  do 7 (apply staged_bind; [auto with quiet|]; intros ?).
  destruct (build_tf_config _) as [tw' built].
  apply staged_bind; [auto with quiet|]. intros cfg w.
  unfold mbind, M_bind at 1.
  destruct (decide (1 < length (env_hosts env)));
    unfold _run_ps_server, record, mret, M_ret, mbind, M_bind;
    rewrite save_tf_config_env_var_run; done.
Qed.

(** The monitor never exits the process; it is still running exactly when
    the master answered every probe that the fuel allowed. *)
Lemma wait_outcome (ext : Externals) (master : string) (fuel : nat) :
  forall w,
    match _wait_until_master_is_down ext master fuel w with
    | (Exits _, _, _) => False
    | (Running, _, evs) =>
        milestones evs = [] /\ filter is_exit evs = [] /\
        forall i, i < fuel -> exit_status ext (checks w + i) = Some 0
    | (_, _, evs) =>
        milestones evs = [] /\ filter is_exit evs = [] /\
        exists i, i < fuel /\ exit_status ext (checks w + i) <> Some 0
    end.
Proof.
  induction fuel as [|fuel IH]; intros w.
  { cbn. split_and!; [done..|]. intros i Hi. lia. }
  destruct (exit_status ext (checks w)) as [[|c]|] eqn:Hw.
  - rewrite wait_step_up by done. specialize (IH (probed w)).
    destruct (_wait_until_master_is_down ext master fuel (probed w))
      as [[[[]|e|c|] w'] evs]; try done; unfold after; cbn [fst snd];
      destruct IH as (Hms & Hx & Hi);
      rewrite milestones_app, filter_app, Hms, Hx;
      (split_and!; [done..|]).
    + destruct Hi as (i & Hi & Hne). exists (S i). split; [lia|].
      by rewrite <- Nat.add_succ_comm.
    + destruct Hi as (i & Hi & Hne). exists (S i). split; [lia|].
      by rewrite <- Nat.add_succ_comm.
    + intros [|i] Hlt; [by rewrite Nat.add_0_r|].
      rewrite <- Nat.add_succ_comm. apply Hi. lia.
  - rewrite (wait_step_down _ _ _ _ c) by done. split_and!; [done..|].
    exists 0. split; [lia|]. rewrite Nat.add_0_r, Hw. discriminate.
  - rewrite wait_step_no_curl by done. split_and!; [done..|].
    exists 0. split; [lia|]. rewrite Nat.add_0_r, Hw. discriminate.
Qed.

(** The [try] block of [train]: training is the one milestone it reaches;
    it never exits the process itself; and it can only be still running
    when training returned, the host is not the master, and the master
    answered every probe that the fuel allowed. *)
Lemma train_body_outcome (ext : Externals) (env : TrainingEnvironment)
    (fuel : nat) (s : Started) (w : World) :
  match train_body ext env fuel s w with
  | (Exits _, _, _) => False
  | (Running, _, evs) =>
      milestones evs = [TrainingStarted] /\ filter is_exit evs = [] /\
      train_and_log_exceptions ext = Ok tt /\
      task_type (train_wrapper s) <> Some "master" /\
      forall i, i < fuel -> exit_status ext (checks w + i) = Some 0
  | (_, _, evs) =>
      milestones evs = [TrainingStarted] /\ filter is_exit evs = []
  end.
Proof.
  unfold train_body, call, record, lift, mbind, M_bind, mret, M_ret, raise.
  cbn [after fst snd].
  destruct (train_and_log_exceptions ext) as [[]|e]; [|done].
  cbn [after fst snd].
  destruct (decide (task_type (train_wrapper s) = Some "master")) as [Hm|Hm].
  - (* the master: export when the checkpoints are elsewhere, no wait *)
    rewrite (bool_decide_eq_true_2 _ Hm), andb_true_r.
    rewrite (bool_decide_eq_false_2
               (task_type (train_wrapper s) <> Some "master"))
      by (intros H; by apply H).
    case_bool_decide; [|done].
    destruct (export_saved_model ext) as [[]|e]; done.
  - (* not the master: no export, then the wait *)
    rewrite (bool_decide_eq_false_2 _ Hm), andb_false_r.
    rewrite (bool_decide_eq_true_2 _ Hm). cbn [after fst snd].
    destruct (_get_master (tf_config s)) as [master|e]; [|done].
    pose proof (wait_outcome ext master fuel w) as Hwait.
    destruct (_wait_until_master_is_down ext master fuel w)
      as [[[[]|e|c|] w'] evs]; try done; cbn [after fst snd app];
      destruct Hwait as (Hms & Hx & Hi);
      change (milestones (?a :: evs))
        with (TrainingStarted :: milestones evs);
      change (filter is_exit (?a :: evs)) with (filter is_exit evs);
      rewrite ?Hms, ?Hx; done.
Qed.

(** [train] once its setup has returned: the [try] block, then the
    [finally] block unless the block is still running. *)
Lemma train_after_setup (ext : Externals) (env : TrainingEnvironment)
    (fuel : nat) (w w1 : World) (s : Started) (evs1 : list Event) :
  train_setup ext env w = (Returns s, w1, evs1) ->
  train ext env fuel w =
    match train_body ext env fuel s w1 with
    | (Returns _, w2, evs2) | (Raises _, w2, evs2) =>
        (Exits 0, w2, evs1 ++ evs2 ++ [EvOsExit 0])
    | (Exits c, w2, evs2) => (Exits c, w2, evs1 ++ evs2)
    | (Running, w2, evs2) => (Running, w2, evs1 ++ evs2)
    end.
Proof.
  intros Hsetup. unfold train, mbind, M_bind. rewrite Hsetup.
  unfold try_finally, os_exit, after.
  by destruct (train_body ext env fuel s w1) as [[[[]|e|c|] w2] evs2].
Qed.

(** [train] when its setup raises: the exception leaves [train]. *)
Lemma train_setup_raises (ext : Externals) (env : TrainingEnvironment)
    (fuel : nat) (w w1 : World) (e : exn) (evs1 : list Event) :
  train_setup ext env w = (Raises e, w1, evs1) ->
  train ext env fuel w = (Raises e, w1, evs1).
Proof. intros Hsetup. unfold train, mbind, M_bind. by rewrite Hsetup. Qed.

(** C5 (as the code has it): once the setup of [train] has returned, so
    that the [try] block is entered, [train] neither returns nor raises:
    whether training returns or raises, the export raises, or the wait for
    the master ends or raises, the process ends by [os._exit(0)], which is
    its last event and its only exit. The one other outcome is that the
    process is still waiting: training returned, the host is not the
    master, and the master answered every probe that the fuel allowed.
    When the setup raises, the exception leaves [train] and the process
    has not exited. *)
Theorem train_exits_once (ext : Externals) (env : TrainingEnvironment)
    (fuel : nat) (w : World) :
  (forall s w1 evs1,
     train_setup ext env w = (Returns s, w1, evs1) ->
     exists w' evs,
       filter is_exit evs = [] /\
       (train ext env fuel w = (Exits 0, w', evs ++ [EvOsExit 0]) \/
        train ext env fuel w = (Running, w', evs) /\
        train_and_log_exceptions ext = Ok tt /\
        task_type (train_wrapper s) <> Some "master" /\
        forall i, i < fuel -> exit_status ext (checks w + i) = Some 0)) /\
  (forall e w1 evs1,
     train_setup ext env w = (Raises e, w1, evs1) ->
     train ext env fuel w = (Raises e, w1, evs1) /\
     filter is_exit evs1 = []).
Proof.
  pose proof (train_setup_staged ext env w) as Hst. split.
  - intros s w1 evs1 Hsetup.
    rewrite (train_after_setup _ _ _ _ _ _ _ Hsetup).
    rewrite Hsetup in Hst. destruct Hst as (Hchecks & _ & Hx1).
    pose proof (train_body_outcome ext env fuel s w1) as Hbody.
    destruct (train_body ext env fuel s w1) as [[[[]|e|c|] w2] evs2];
      try done; exists w2, (evs1 ++ evs2).
    + destruct Hbody as (_ & Hx2). rewrite filter_app, Hx1, Hx2.
      split; [done|]. left. by rewrite <- app_assoc.
    + destruct Hbody as (_ & Hx2). rewrite filter_app, Hx1, Hx2.
      split; [done|]. left. by rewrite <- app_assoc.
    + destruct Hbody as (_ & Hx2 & Htrain & Hrole & Hup).
      rewrite filter_app, Hx1, Hx2. split; [done|]. right.
      rewrite <- Hchecks. done.
  - intros e w1 evs1 Hsetup. rewrite Hsetup in Hst.
    split; [by apply train_setup_raises | by destruct Hst as (_ & _ & ?)].
Qed.

Lemma train_exits_once_witness :
  exists w' evs,
    filter is_exit evs = [] /\
    (train (master_up_for 1) (sample_env "b" ["a"; "b"]) 5 fresh =
       (Exits 0, w', evs ++ [EvOsExit 0]) \/
     train (master_up_for 1) (sample_env "b" ["a"; "b"]) 5 fresh =
       (Running, w', evs) /\
     train_and_log_exceptions (master_up_for 1) = Ok tt /\
     task_type (set_task_type (trainer_of "b" ["a"; "b"]) "worker")
       <> Some "master" /\
     forall i, i < 5 ->
               exit_status (master_up_for 1) (checks fresh + i) = Some 0).
Proof.
  eapply (proj1 (train_exits_once (master_up_for 1)
                   (sample_env "b" ["a"; "b"]) 5 fresh)
            {| train_wrapper :=
                 set_task_type (trainer_of "b" ["a"; "b"]) "worker";
               tf_config := _; checkpoint_dir := _ |}).
  vm_compute. reflexivity.
Defined.

(** C5 as stated fails: when a statement before the [try] block raises,
    be it [build_tf_config] for a host that is not in the cluster or the
    import of the customer module, the exception leaves [train] and
    [os._exit] is never called. *)
Lemma train_raises_without_exit :
  (exists w' evs,
     train (master_up_for 0) (sample_env "b" ["a"]) 5 fresh =
       (Raises ValueError, w', evs) /\
     filter is_exit evs = []) /\
  (exists w' evs,
     train import_fails (sample_env "a" ["a"]) 5 fresh =
       (Raises (ForeignError "ImportError"), w', evs) /\
     filter is_exit evs = []).
Proof. split; eexists _, _; split; vm_compute; reflexivity. Qed.

Example train_worker_run :
  (train (master_up_for 1) (sample_env "b" ["a"; "b"]) 5 fresh).2 =
  [EvSetEnviron "S3_REQUEST_TIMEOUT_MSEC" "60000";
   EvDownloadUserModule; EvPipInstallRequirements; EvImportUserModule;
   EvThreadStart "b" ["a"; "b"]
     {| cluster := <["worker" := ["b:2222"] ]>
                   (<["ps" := ["a:2223"; "b:2223"] ]>
                   (<["master" := ["a:2222"] ]> ∅));
        task := {| index := 0; type := "worker" |};
        environment := "cloud" |};
   EvSetEnviron "TF_CONFIG" "tf_config of worker";
   EvLogInfo "----------------------TF_CONFIG--------------------------";
   EvLogInfo "tf_config of worker";
   EvLogInfo "---------------------------------------------------------";
   EvTrainAndLogExceptions "/opt/ml/output";
   probe "a"; EvSleep 10; probe "a";
   EvLogInfo "master a is down, stopping parameter server";
   EvOsExit 0].
Proof. vm_compute. reflexivity. Qed.











(** ** The estimator *)

(** C8 (as the code has it): [_build_estimator] looks for the callables of
    the customer module in the order [estimator_fn], [keras_model_fn],
    [model_fn]. When [estimator_fn] is present it is called, whatever else
    is present; otherwise [keras_model_fn] is called when present;
    otherwise the estimator is built around [model_fn], which is looked up
    only when the estimator calls its model function: the customer's
    [model_fn] when present, [AttributeError] when absent. Nothing checks
    how many of the three are present. *)
Theorem _build_estimator_priority (self : Trainer) (w : World) :
  let cs := customer_script self in
  let d := heap w !!! customer_params self in
  let rc := {| model_dir := model_path self;
               runconfig_params :=
                 filter (fun kv => kv.1 ∈ valid_runconfig_keys) d |} in
  let logs := [EvLogInfo "creating RunConfig:";
               EvLogParams (runconfig_params rc)] in
  (forall f,
     estimator_fn cs = Some f ->
     _build_estimator self w =
       (match f rc d with
        | Ok e => Returns (CustomerEstimator e)
        | Raise x => Raises x
        end, w, logs ++ [EvLogInfo "invoking estimator_fn"])) /\
  (forall g,
     estimator_fn cs = None -> keras_model_fn cs = Some g ->
     _build_estimator self w =
       (match g d with
        | Ok model => Returns (ModelToEstimator model rc)
        | Raise x => Raises x
        end, w, logs ++ [EvLogInfo "involing keras_model_fn"])) /\
  (estimator_fn cs = None -> keras_model_fn cs = None ->
   _build_estimator self w =
     (Returns (TfEstimator (_model_fn self) (customer_params self) rc),
      w, logs ++ [EvLogInfo "creating the estimator"])) /\
  (forall m features labels mode params,
     model_fn cs = Some m ->
     _model_fn self features labels mode params =
       m features labels mode params) /\
  (forall features labels mode params,
     model_fn cs = None ->
     _model_fn self features labels mode params = Raise AttributeError).
Proof.
  intros cs d rc logs. subst cs d rc logs.
  unfold _build_estimator, _model_fn, mbind, M_bind, get_dict, log_info,
    record, lift, mret, M_ret, raise.
  cbn [after fst snd app runconfig_params]. split_and!.
  - intros f ->. by destruct (f _ _).
  - intros g -> ->. by destruct (g _).
  - by intros -> ->.
  - by intros m ???? ->.
  - by intros ???? ->.
Qed.

(** C8 as stated fails where it asks for exactly one callable: a customer
    module with two of them gets its estimator from the first in the
    order, and a module with none still gets an estimator, whose model
    function raises when called. *)
Lemma _build_estimator_two_or_none :
  (_build_estimator (trainer_for two_callables) fresh).1.1 =
    Returns (CustomerEstimator 7) /\
  exists rc,
    (_build_estimator (trainer_for no_script) fresh).1.1 =
      Returns (TfEstimator (_model_fn (trainer_for no_script)) 1 rc) /\
    _model_fn (trainer_for no_script) 0 0 0 ∅ = Raise AttributeError.
Proof. split; [reflexivity|]. eexists. split; reflexivity. Qed.

(** * More of the code *)

(** ** The topology on every node *)

Lemma build_tf_config_raises (self : Trainer) :
  current_host self ∉ hosts self ->
  (build_tf_config self).2 = Raise ValueError.
Proof.
  intros Hin. unfold build_tf_config, _get_task_type, contains. cbn [snd].
  rewrite (bool_decide_eq_false_2 (current_host self ∈ take 1 (hosts self)))
    by (intros H; apply Hin; by eapply subseteq_take).
  cbn [set_task_type current_host]. rewrite task_map_lookup_worker.
  cbn [mbind result_bind]. rewrite list_index_not_elem; [done|].
  intros H. apply Hin. by eapply subseteq_drop.
Qed.

(** X1: All nodes of a cluster compute the same cluster: for two trainers with
    the same host list, whatever their current hosts (both in the list)
    and other fields, the [cluster] and [environment] of the two
    topologies are equal; only [task] can differ. *)
Theorem build_tf_config_cluster_agrees (self1 self2 : Trainer) :
  hosts self1 = hosts self2 ->
  current_host self1 ∈ hosts self1 ->
  current_host self2 ∈ hosts self2 ->
  exists cfg1 cfg2,
    (build_tf_config self1).2 = Ok cfg1 /\
    (build_tf_config self2).2 = Ok cfg2 /\
    cluster cfg1 = cluster cfg2 /\
    environment cfg1 = environment cfg2.
Proof.
  intros Hh Hin1 Hin2. destruct (hosts self1) as [|h t] eqn:Hh1.
  { by apply elem_of_nil in Hin1. }
  symmetry in Hh. rewrite Hh in Hin2.
  destruct (build_tf_config_ok self1 h t Hh1 Hin1)
    as (cfg1 & -> & _ & _ & Hm1 & Hps1 & Hw1 & Hno1 & He1).
  destruct (build_tf_config_ok self2 h t Hh Hin2)
    as (cfg2 & -> & _ & _ & Hm2 & Hps2 & Hw2 & Hno2 & He2).
  exists cfg1, cfg2. split_and!; [done..| |congruence].
  apply map_eq. intros k.
  destruct (decide (k = "master")) as [->|?]; [congruence|].
  destruct (decide (k = "ps")) as [->|?]; [congruence|].
  destruct (decide (k = "worker")) as [->|?]; [congruence|].
  by rewrite Hno1, Hno2.
Qed.

Lemma build_tf_config_cluster_agrees_witness :
  exists cfg1 cfg2,
    (build_tf_config (trainer_of "a" ["a"; "b"; "c"])).2 = Ok cfg1 /\
    (build_tf_config (trainer_of "c" ["a"; "b"; "c"])).2 = Ok cfg2 /\
    cluster cfg1 = cluster cfg2 /\
    environment cfg1 = environment cfg2.
Proof.
  apply (build_tf_config_cluster_agrees (trainer_of "a" ["a"; "b"; "c"])
           (trainer_of "c" ["a"; "b"; "c"]));
    [reflexivity | apply (bool_decide_unpack _); vm_compute; reflexivity ..].
Defined.

(** X2: Building the topology again changes nothing: the second call returns
    the same result, a topology or the same exception, and leaves the
    trainer as the first call left it. *)
Theorem build_tf_config_again (self : Trainer) :
  build_tf_config (build_tf_config self).1 = build_tf_config self.
Proof. by destruct self. Qed.

(** ** The parameter server of a node *)

(** X3: In a cluster of more than one host, the parameter server of a node is
    made with the cluster of the topology, the job name ["ps"] and, as task
    index, the position of the node among all the hosts; at that position
    the [ps] entry of the cluster holds the node's own address on port
    2223. The index is 0 on the master and one more than the node's
    [task.index] on a worker. *)
Theorem start_ps_server_index (self : Trainer) (h : string)
    (t : list string) :
  hosts self = h :: t -> current_host self ∈ hosts self ->
  1 < length (hosts self) ->
  exists cfg i ps,
    (build_tf_config self).2 = Ok cfg /\
    start_ps_server (current_host self) (hosts self) cfg =
      Ok (cluster cfg, "ps", i) /\
    hosts self !! i = Some (current_host self) /\
    cluster cfg !! "ps" = Some ps /\
    ps !! i = Some (current_host self +:+ ":2223") /\
    i = (if decide (type (task cfg) = "master") then 0
         else S (index (task cfg))).
Proof.
  intros Hh Hin Hlen. rewrite Hh in Hin, Hlen.
  destruct (build_tf_config_ok self h t Hh Hin)
    as (cfg & -> & Hty & Hidx & _ & Hps & _).
  rewrite decide_True in Hps by done. rewrite Hh.
  unfold _get_task_type in Hty. rewrite contains_singleton in Hty.
  unfold start_ps_server. cbn [list_index].
  set (x := current_host self) in *.
  assert (Hlook : forall i, (h :: t) !! i = Some x ->
            ((fun y => y +:+ ":2223") <$> h :: t) !! i = Some (x +:+ ":2223")).
  { intros i Hi. by rewrite list_lookup_fmap, Hi. }
  case_bool_decide as Hx.
  - exists cfg, 0, ((fun y => y +:+ ":2223") <$> h :: t).
    rewrite decide_True by done. rewrite Hty, decide_True by done.
    split_and!; try done; rewrite Hx; done.
  - apply elem_of_cons in Hin as [?|Hin]; [done|].
    destruct (list_index_elem _ _ Hin) as (n & Hn & Hlk & _).
    rewrite Hn in Hidx. injection Hidx as Hidx.
    exists cfg, (S n), ((fun y => y +:+ ":2223") <$> h :: t).
    rewrite decide_False by done.
    rewrite Hn, Hty, decide_False, <- Hidx by done.
    split_and!; try done. by apply Hlook.
Qed.

Lemma start_ps_server_index_witness :
  exists cfg i ps,
    (build_tf_config (trainer_of "c" ["a"; "b"; "c"])).2 = Ok cfg /\
    start_ps_server "c" ["a"; "b"; "c"] cfg = Ok (cluster cfg, "ps", i) /\
    ["a"; "b"; "c"] !! i = Some "c" /\
    cluster cfg !! "ps" = Some ps /\
    ps !! i = Some "c:2223" /\
    i = (if decide (type (task cfg) = "master") then 0
         else S (index (task cfg))).
Proof.
  apply (start_ps_server_index (trainer_of "c" ["a"; "b"; "c"])
           "a" ["b"; "c"]).
  - reflexivity.
  - apply (bool_decide_unpack _). vm_compute. reflexivity.
  - cbn. lia.
Defined.

(** ** The liveness monitor, when it does not return *)

(** X4: Only a failed probe counts as the master being down: when [curl]
    cannot be started at all, after [k] probes that succeeded,
    [_wait_until_master_is_down] does not return; [OSError] leaves it,
    right after that probe, with no log line and after [k] sleeps. *)
Theorem wait_until_master_is_down_no_curl (ext : Externals)
    (master : string) (k : nat) :
  forall (fuel : nat) (w : World),
    (forall i, i < k -> exit_status ext (checks w + i) = Some 0) ->
    exit_status ext (checks w + k) = None ->
    k < fuel ->
    _wait_until_master_is_down ext master fuel w =
      (Raises OSError,
       {| heap := heap w; environ := environ w;
          checks := checks w + S k |},
       concat (replicate k [probe master; EvSleep 10]) ++ [probe master]).
Proof.
  induction k as [|k IH]; intros fuel w Hup Hdown Hfuel;
    (destruct fuel as [|fuel]; [lia|]).
  - rewrite Nat.add_0_r in Hdown. rewrite (wait_step_no_curl _ _ _ _ Hdown).
    unfold probed. by rewrite Nat.add_1_r.
  - rewrite wait_step_up
      by (rewrite <- (Nat.add_0_r (checks w)); apply Hup; lia).
    rewrite (IH fuel (probed w)); cbn [probed checks heap environ].
    + unfold after. cbn. do 2 f_equal. f_equal. lia.
    + intros i Hi. rewrite Nat.add_succ_comm. apply Hup. lia.
    + by rewrite Nat.add_succ_comm.
    + lia.
Qed.

Lemma wait_until_master_is_down_no_curl_witness :
  _wait_until_master_is_down (curl_lost_after 1) "a" 3 fresh =
    (Raises OSError,
     {| heap := ∅; environ := ∅; checks := 2 |},
     [probe "a"; EvSleep 10; probe "a"]).
Proof.
  apply (wait_until_master_is_down_no_curl (curl_lost_after 1) "a" 1 3 fresh).
  - intros i Hi. replace i with 0 by lia. reflexivity.
  - reflexivity.
  - lia.
Defined.

(** X5: The monitor does not give up: as long as the master answers every
    probe, it is still polling after any number of turns, having probed
    and slept 10 seconds once per turn and logged nothing. *)
Theorem wait_until_master_is_down_keeps_polling (ext : Externals)
    (master : string) (fuel : nat) :
  forall w : World,
    (forall i, i < fuel -> exit_status ext (checks w + i) = Some 0) ->
    _wait_until_master_is_down ext master fuel w =
      (Running,
       {| heap := heap w; environ := environ w;
          checks := checks w + fuel |},
       concat (replicate fuel [probe master; EvSleep 10])).
Proof.
  induction fuel as [|fuel IH]; intros w Hup.
  - cbn. unfold running. destruct w. cbn. by rewrite Nat.add_0_r.
  - rewrite wait_step_up
      by (rewrite <- (Nat.add_0_r (checks w)); apply Hup; lia).
    rewrite (IH (probed w)); cbn [probed checks heap environ].
    + unfold after. cbn [fst snd replicate concat app].
      rewrite Nat.add_succ_comm. reflexivity.
    + intros i Hi. rewrite Nat.add_succ_comm. apply Hup. lia.
Qed.

Lemma wait_until_master_is_down_keeps_polling_witness :
  _wait_until_master_is_down (master_up_for 5) "a" 2 fresh =
    (Running,
     {| heap := ∅; environ := ∅; checks := 2 |},
     [probe "a"; EvSleep 10; probe "a"; EvSleep 10]).
Proof.
  apply (wait_until_master_is_down_keeps_polling (master_up_for 5) "a" 2
           fresh).
  intros i Hi. cbn. rewrite decide_True by lia. reflexivity.
Defined.

(** ** Constructing a trainer *)

(** The dictionary that [Trainer.__init__] leaves at the location of the
    hyperparameters holds both defaults. *)
Lemma __init___defaults_present (ext : Externals) (cs : CustomerScript)
    (h : string) (hs : list string) (ts es : value) (tp : string)
    (mp : value) (op : string) (mef : value) (cp : option loc)
    (scs : value) (w : World) :
  let l := default default_customer_params cp in
  let now := heap (__init__ ext cs h hs ts es tp mp op mef cp scs w).1.2
               !!! l in
  now !! "min_eval_frequency" =
    Some (get (heap w !!! l) "min_eval_frequency" mef) /\
  now !! "save_checkpoints_secs" =
    Some (get (heap w !!! l) "save_checkpoints_secs" scs).
Proof.
  intros l now. unfold now. rewrite __init___heap. fold l.
  rewrite lookup_total_insert_eq. split.
  - by rewrite lookup_insert_ne, lookup_insert_eq.
  - rewrite lookup_insert_eq. unfold get. by rewrite lookup_insert_ne.
Qed.

(** A second construction on the same dictionary writes nothing new. *)
Lemma __init___heap_again (ext ext' : Externals) (cs cs' : CustomerScript)
    (h h' : string) (hs hs' : list string) (ts es ts' es' : value)
    (tp tp' : string) (mp mp' : value) (op op' : string)
    (mef mef' : value) (cp : option loc) (scs scs' : value) (w : World) :
  heap (__init__ ext' cs' h' hs' ts' es' tp' mp' op' mef' cp scs'
          (__init__ ext cs h hs ts es tp mp op mef cp scs w).1.2).1.2 =
  heap (__init__ ext cs h hs ts es tp mp op mef cp scs w).1.2.
Proof.
  set (w1 := (__init__ ext cs h hs ts es tp mp op mef cp scs w).1.2).
  pose proof (__init___defaults_present ext cs h hs ts es tp mp op mef cp
                scs w) as [Hmef Hscs].
  fold w1 in Hmef, Hscs. cbn zeta in Hmef, Hscs.
  rewrite __init___heap.
  set (l := default default_customer_params cp) in *.
  set (d := heap w1 !!! l) in *.
  assert (Hg1 : get d "min_eval_frequency" mef' =
                get (heap w !!! l) "min_eval_frequency" mef)
    by (unfold get at 1; by rewrite Hmef).
  rewrite Hg1, (insert_id d _ _ Hmef).
  assert (Hg2 : get d "save_checkpoints_secs" scs' =
                get (heap w !!! l) "save_checkpoints_secs" scs)
    by (unfold get at 1; by rewrite Hscs).
  rewrite Hg2, (insert_id d _ _ Hscs).
  apply insert_id. unfold d, w1. rewrite __init___heap. fold l.
  by rewrite lookup_total_insert_eq, lookup_insert_eq.
Qed.

(** X6: Constructing a second trainer on the same hyperparameter dictionary,
    with whatever arguments, leaves every dictionary as the first
    construction left it: the defaults are written once. This holds for
    the dictionary of the default argument [customer_params={}] too, which
    all trainers constructed without [customer_params] share: the second
    such trainer holds the same object as the first, and its own
    [min_eval_frequency] and [save_checkpoints_secs] arguments are not
    used, the values written for the first trainer stay. *)
Theorem __init___twice (ext ext' : Externals) (cs cs' : CustomerScript)
    (h h' : string) (hs hs' : list string) (ts es ts' es' : value)
    (tp tp' : string) (mp mp' : value) (op op' : string)
    (mef mef' scs scs' : value) (w : World) :
  (forall cp,
     let w1 := (__init__ ext cs h hs ts es tp mp op mef cp scs w).1.2 in
     heap (__init__ ext' cs' h' hs' ts' es' tp' mp' op' mef' cp scs'
             w1).1.2 = heap w1) /\
  (let r1 := __init__ ext cs h hs ts es tp mp op mef None scs w in
   let r2 := __init__ ext' cs' h' hs' ts' es' tp' mp' op' mef' None scs'
               r1.1.2 in
   let shared := heap r2.1.2 !!! default_customer_params in
   (forall self1 self2,
      r1.1.1 = Returns self1 -> r2.1.1 = Returns self2 ->
      customer_params self1 = customer_params self2) /\
   shared !! "min_eval_frequency" =
     Some (get (heap w !!! default_customer_params) "min_eval_frequency"
             mef) /\
   shared !! "save_checkpoints_secs" =
     Some (get (heap w !!! default_customer_params) "save_checkpoints_secs"
             scs)).
Proof.
  split; [intros cp; apply __init___heap_again|].
  intros r1 r2 shared. split.
  { intros self1 self2 H1 H2. apply __init___self in H1, H2.
    by subst self1 self2. }
  unfold shared, r2, r1. rewrite __init___heap_again.
  apply (__init___defaults_present ext cs h hs ts es tp mp op mef None scs w).
Qed.

Example __init___default_dict_twice :
  let r1 := __init__ (master_up_for 0) no_script "a" ["a"] (VInt 1) (VInt 1)
              "/data" (VStr "/model") "/out" (VInt 5) None (VInt 300)
              fresh in
  let r2 := __init__ (master_up_for 0) no_script "a" ["a"] (VInt 1) (VInt 1)
              "/data" (VStr "/model") "/out" (VInt 7) None (VInt 300)
              r1.1.2 in
  (heap r2.1.2 !!! default_customer_params : dict) !! "min_eval_frequency" =
    Some (VInt 5).
Proof. reflexivity. Qed.

(** X7: What [Trainer.__init__] does about S3. For a model path that does not
    start with [s3://] it returns without any call to the outside and
    leaves the environment as it was. For one that does, it asks once for
    the location of the bucket; with an answer it returns, having set
    [S3_USE_HTTPS] to ["1"] and, when the location is a non-empty string,
    [S3_REGION] to it, no other variable; when the question raises, so
    does the constructor, and the environment is as it was. A model path
    that is not a string makes it raise [AttributeError]. *)
Theorem __init___s3 (ext : Externals) (cs : CustomerScript)
    (h : string) (hs : list string) (ts es : value) (tp : string)
    (mp : value) (op : string) (mef : value) (cp : option loc)
    (scs : value) (w : World) :
  let r := __init__ ext cs h hs ts es tp mp op mef cp scs w in
  (forall p,
     mp = VStr p -> startswith "s3://" p = false ->
     (exists self, r.1.1 = Returns self) /\
     r.2 = [] /\ environ r.1.2 = environ w) /\
  (forall p loc,
     mp = VStr p -> startswith "s3://" p = true ->
     get_bucket_location ext = Ok loc ->
     (exists self, r.1.1 = Returns self) /\
     r.2 = EvGetBucketLocation p ::
           match loc with
           | Some (String c s) => [EvSetEnviron "S3_REGION" (String c s)]
           | _ => []
           end ++ [EvSetEnviron "S3_USE_HTTPS" "1"] /\
     environ r.1.2 !! "S3_USE_HTTPS" = Some "1" /\
     environ r.1.2 !! "S3_REGION" =
       match loc with
       | Some (String c s) => Some (String c s)
       | _ => environ w !! "S3_REGION"
       end /\
     (forall k, k <> "S3_USE_HTTPS" -> k <> "S3_REGION" ->
                environ r.1.2 !! k = environ w !! k)) /\
  (forall p e,
     mp = VStr p -> startswith "s3://" p = true ->
     get_bucket_location ext = Raise e ->
     r.1.1 = Raises e /\ r.2 = [EvGetBucketLocation p] /\
     environ r.1.2 = environ w) /\
  (forall z,
     mp = VInt z ->
     r.1.1 = Raises AttributeError /\ r.2 = [] /\ environ r.1.2 = environ w).
Proof.
  intros r. subst r. unfold __init__, mbind, M_bind, get_dict, setitem.
  cbn [heap environ checks after fst snd]. split_and!.
  - intros p -> Hp. rewrite Hp. cbn. eauto.
  - intros p loc -> Hp Hloc. rewrite Hp.
    rewrite _configure_s3_file_system_run, Hloc.
    assert (Hok : forall c s, loc = Some (String c s) ->
                    environ_accepts "S3_REGION" (String c s) = true).
    { intros c s ->. unfold environ_accepts.
      by rewrite (get_bucket_location_text ext _ Hloc). }
    destruct loc as [[|c s]|]; rewrite ?(Hok c s eq_refl); cbn;
      (split_and!; [by eauto|done|by rewrite lookup_insert_eq|..]).
    + by rewrite lookup_insert_ne.
    + intros k ? ?. by rewrite lookup_insert_ne.
    + by rewrite lookup_insert_ne, lookup_insert_eq.
    + intros k ? ?. by rewrite !lookup_insert_ne.
    + by rewrite lookup_insert_ne.
    + intros k ? ?. by rewrite lookup_insert_ne.
  - intros p e -> Hp Hloc. rewrite Hp.
    by rewrite _configure_s3_file_system_run, Hloc.
  - by intros z ->.
Qed.

(** ** What reaches the estimator and the experiment *)

(** The run of [_build_estimator], with the [RunConfig] it makes. *)
Lemma _build_estimator_run (self : Trainer) (w : World) :
  let d := heap w !!! customer_params self in
  let rc := {| model_dir := model_path self;
               runconfig_params :=
                 filter (fun kv => kv.1 ∈ valid_runconfig_keys) d |} in
  (_build_estimator self w).1.1 =
    match estimator_fn (customer_script self) with
    | Some f =>
        match f rc d with
        | Ok e => Returns (CustomerEstimator e)
        | Raise x => Raises x
        end
    | None =>
        match keras_model_fn (customer_script self) with
        | Some g =>
            match g d with
            | Ok model => Returns (ModelToEstimator model rc)
            | Raise x => Raises x
            end
        | None =>
            Returns (TfEstimator (_model_fn self) (customer_params self) rc)
        end
    end.
Proof.
  intros d rc. subst d rc.
  unfold _build_estimator, mbind, M_bind, get_dict, log_info, record, lift,
    mret, M_ret, raise.
  cbn [after fst snd].
  destruct (estimator_fn _) as [f|]; [by destruct (f _ _)|].
  destruct (keras_model_fn _) as [g|]; [by destruct (g _)|done].
Qed.


(** X8: The [RunConfig] that [_build_estimator] makes, and gives to
    [estimator_fn], to the converted Keras model or to the estimator it
    builds itself: its [model_dir] is the trainer's model path, and its
    parameters are the hyperparameters whose key is one of the six keys of
    [valid_runconfig_keys], each with its value; a hyperparameter with any
    other key is left out, without an error. *)
Theorem _build_estimator_run_config (self : Trainer) (w : World) :
  exists rc,
    model_dir rc = model_path self /\
    (forall k v,
       runconfig_params rc !! k = Some v <->
       (heap w !!! customer_params self) !! k = Some v /\
       k ∈ valid_runconfig_keys) /\
    (_build_estimator self w).1.1 =
      match estimator_fn (customer_script self) with
      | Some f =>
          match f rc (heap w !!! customer_params self) with
          | Ok e => Returns (CustomerEstimator e)
          | Raise x => Raises x
          end
      | None =>
          match keras_model_fn (customer_script self) with
          | Some g =>
              match g (heap w !!! customer_params self) with
              | Ok model => Returns (ModelToEstimator model rc)
              | Raise x => Raises x
              end
          | None =>
              Returns (TfEstimator (_model_fn self) (customer_params self)
                         rc)
          end
      end.
Proof.
  eexists. split_and!; [| |apply _build_estimator_run]; [done|].
  intros k v. cbn [runconfig_params]. by rewrite map_lookup_filter_Some.
Qed.

(** X9: The experiment that [_experiment_fn] makes: it holds the estimator
    built before and the trainer's [train_steps] and [eval_steps], keeps
    one export, and its parameters are the hyperparameters, as they are
    when the function is called, whose key is one of the nine keys of
    [valid_experiment_keys]; the others are left out. The [output_dir] it
    is called with is not used. *)
Theorem _experiment_fn_experiment (inputs : CustomerInputs) (self : Trainer)
    (estimator : Estimator) (output_dir : string) (w : World) :
  exists e,
    _experiment_fn inputs self estimator output_dir w =
      (Returns e, w,
       [EvLogInfo "creating Experiment:"; EvLogParams (exp_params e)]) /\
    exp_estimator e = estimator /\
    exp_train_steps e = train_steps self /\
    exp_eval_steps e = eval_steps self /\
    exp_exports_to_keep e = 1 /\
    (forall k v,
       exp_params e !! k = Some v <->
       (heap w !!! customer_params self) !! k = Some v /\
       k ∈ valid_experiment_keys) /\
    (forall output_dir',
       _experiment_fn inputs self estimator output_dir' w =
       _experiment_fn inputs self estimator output_dir w).
Proof.
  exists {| exp_estimator := estimator;
            exp_train_input_fn := _train_input_fn inputs self;
            exp_eval_input_fn := _eval_input_fn inputs self;
            exp_serving_input_fn := _serving_input_fn inputs self;
            exp_exports_to_keep := 1;
            exp_train_steps := train_steps self;
            exp_eval_steps := eval_steps self;
            exp_params :=
              filter (fun kv => kv.1 ∈ valid_experiment_keys)
                (heap w !!! customer_params self) |}.
  split_and!; [reflexivity|done..| |done].
  intros k v. cbn [exp_params]. by rewrite map_lookup_filter_Some.
Qed.



(** ** The input functions of the experiment *)

(** The run of an input function of the experiment. *)
Lemma _input_fn_run (fn : option (string -> loc -> Customer FnOrValue))
    (self : Trainer) (w : World) :
  _input_fn fn self w =
    match fn with
    | None => (Raises AttributeError, w, [])
    | Some f =>
        match f (training_path self) (customer_params self) w with
        | (Returns (AValue o), w') => (Returns o, w', [])
        | (Returns (AFunction g), w') => (g w', [])
        | (Raises x, w') => (Raises x, w', [])
        | (Exits c, w') => (Exits c, w', [])
        | (Running, w') => (Running, w', [])
        end
    end.
Proof.
  destruct fn as [f|]; [|reflexivity].
  unfold _input_fn, mbind, M_bind, customer.
  destruct (f _ _ w) as [[[o|g]|x|c|] w']; try reflexivity.
  unfold after. cbn. by destruct (g w').
Qed.

(** X11: The input function the experiment calls gives the customer's
    function the training path and the hyperparameter dictionary itself,
    and runs in the same way (the same input or the same exception, and
    the same state of the process afterwards) whether the customer's
    function computes the input itself or gives back a function that
    computes it. A customer module without the function raises
    [AttributeError] at that call, not when the experiment is made. *)
Theorem _input_fn_either_shape (g : string -> loc -> Customer PyObj)
    (self : Trainer) (w : World) :
  let direct :=
    Some (fun p l w0 =>
            (match (g p l w0).1 with
             | Returns o => Returns (AValue o)
             | Raises x => Raises x
             | Exits c => Exits c
             | Running => Running
             end, (g p l w0).2)) in
  let wrapped := Some (fun p l w0 => (Returns (AFunction (g p l)), w0)) in
  _input_fn direct self w = _input_fn wrapped self w /\
  _input_fn direct self w =
    (g (training_path self) (customer_params self) w, []) /\
  _input_fn None self w = (Raises AttributeError, w, []).
Proof.
  intros direct wrapped. unfold direct, wrapped.
  rewrite !_input_fn_run. cbn [fst snd].
  by destruct (g (training_path self) (customer_params self) w)
    as [[o|x|c|] w'].
Qed.

(** ** What [train] has done when training starts *)

Lemma bind_Returns {A B} (m : M A) (f : A -> M B) (w w2 : World) (b : B)
    (evs : list Event) :
  (m ≫= f) w = (Returns b, w2, evs) ->
  exists a w1 evs1 evs2,
    m w = (Returns a, w1, evs1) /\
    f a w1 = (Returns b, w2, evs2) /\
    evs = evs1 ++ evs2.
Proof.
  unfold mbind, M_bind.
  destruct (m w) as [[[a|e|c|] w1] evs1]; try discriminate.
  destruct (f a w1) as [[o w2'] evs2] eqn:Hf. unfold after. cbn.
  intros [= -> -> <-]. by exists a, w1, evs1, evs2.
Qed.

Lemma lift_Returns {A} (r : result A) (w w1 : World) (a : A)
    (evs : list Event) :
  lift r w = (Returns a, w1, evs) -> r = Ok a /\ w1 = w /\ evs = [].
Proof.
  destruct r; unfold lift, mret, M_ret, raise; [|discriminate].
  by intros [= -> -> <-].
Qed.

Lemma call_Returns {A} (e : Event) (r : result A) (w w1 : World) (a : A)
    (evs : list Event) :
  call e r w = (Returns a, w1, evs) -> r = Ok a /\ w1 = w /\ evs = [e].
Proof.
  unfold call. intros H.
  apply bind_Returns in H as ([] & w0 & evs0 & evs' & H0 & H & ->).
  injection H0 as <- <-. by apply lift_Returns in H as (-> & -> & ->).
Qed.

(** What has happened when the statements of [train] before its [try]
    have all returned. *)
Lemma train_setup_Returns (ext : Externals) (env : TrainingEnvironment)
    (w w1 : World) (s : Started) (evs1 : list Event) :
  train_setup ext env w = (Returns s, w1, evs1) ->
  let hp := heap w !!! env_hyperparameters env in
  let timeout := str (get hp "s3_checkpoint_save_timeout" (VInt 60000)) in
  exists cs tp self w0 evs0,
    has_nul timeout = false /\
    download_user_module ext = Ok tt /\
    pip_install_requirements ext = Ok tt /\
    import_user_module ext = Ok cs /\
    env_channel_dirs env !! CHANNEL_DIR = Some tp /\
    __init__ ext cs (env_current_host env) (env_hosts env)
      (get hp "training_steps" (VInt 1000))
      (get hp "evaluation_steps" (VInt 100))
      tp (get hp "checkpoint_path" (VStr (env_model_dir env)))
      (env_output_dir env) (VInt 1000) (Some (env_hyperparameters env))
      (VInt 300) (environ_set "S3_REQUEST_TIMEOUT_MSEC" timeout w) =
      (Returns self, w0, evs0) /\
    build_tf_config self = (train_wrapper s, Ok (tf_config s)) /\
    checkpoint_dir s =
      get hp "checkpoint_path" (VStr (env_model_dir env)) /\
    w1 = environ_set "TF_CONFIG" (json_dumps ext (tf_config s)) w0 /\
    evs1 =
      [EvSetEnviron "S3_REQUEST_TIMEOUT_MSEC" timeout;
       EvDownloadUserModule; EvPipInstallRequirements; EvImportUserModule]
      ++ evs0
      ++ (if decide (1 < length (env_hosts env))
          then [EvThreadStart (env_current_host env) (env_hosts env)
                  (tf_config s)]
          else [])
      ++ [EvSetEnviron "TF_CONFIG" (json_dumps ext (tf_config s));
          EvLogInfo
            "----------------------TF_CONFIG--------------------------";
          EvLogInfo (json_dumps ext (tf_config s));
          EvLogInfo
            "---------------------------------------------------------"].
Proof.
  intros H hp timeout. unfold train_setup in H.
  apply bind_Returns in H as (hp' & ? & ? & ? & Ha & H & ->).
  injection Ha as <- <- <-. fold hp in H.
  apply bind_Returns in H as ([] & ? & ? & ? & Ha & H & ->).
  fold timeout in Ha. apply set_environ_Returns in Ha as (Hnul & -> & ->).
  rewrite environ_accepts_timeout in Hnul.
  apply negb_true_iff in Hnul.
  apply bind_Returns in H as ([] & ? & ? & ? & Ha & H & ->).
  apply call_Returns in Ha as (Hdl & -> & ->).
  apply bind_Returns in H as ([] & ? & ? & ? & Ha & H & ->).
  apply call_Returns in Ha as (Hpip & -> & ->).
  apply bind_Returns in H as (cs & ? & ? & ? & Ha & H & ->).
  apply call_Returns in Ha as (Himp & -> & ->).
  apply bind_Returns in H as (tp & ? & ? & ? & Ha & H & ->).
  apply lift_Returns in Ha as (Htp & -> & ->).
  apply bind_Returns in H as (self & w0 & evs0 & ? & Hinit & H & ->).
  destruct (build_tf_config self) as [tw built] eqn:Hbuilt.
  apply bind_Returns in H as (cfg & ? & ? & ? & Ha & H & ->).
  apply lift_Returns in Ha as (-> & -> & ->).
  apply bind_Returns in H as ([] & wa & ea & ? & Hps & H & ->).
  apply bind_Returns in H as ([] & ? & ? & ? & Hsave & H & ->).
  rewrite save_tf_config_env_var_run in Hsave.
  injection Hsave as <- <-. injection H as <- <- <-.
  exists cs, tp, self, w0, evs0. cbn [train_wrapper tf_config checkpoint_dir].
  assert (Hps' : wa = w0 /\
                 ea = if decide (1 < length (env_hosts env))
                      then [EvThreadStart (env_current_host env)
                              (env_hosts env) cfg]
                      else []).
  { destruct (decide (1 < length (env_hosts env)));
      by injection Hps as <- <-. }
  destruct Hps' as [-> ->].
  split_and!; try done.
  by destruct (env_channel_dirs env !! CHANNEL_DIR) as [p|];
    [injection Htp as ->|].
Qed.

(** ** The events of a run of [train] *)

Lemma only_bind {A B} (P : Event -> bool) (m : M A) (f : A -> M B) :
  only P m -> (forall a, only P (f a)) -> only P (m ≫= f).
Proof.
  intros Hm Hf w. specialize (Hm w). unfold mbind, M_bind.
  destruct (m w) as [[[a|e|c|] w1] evs1]; try done.
  unfold after. cbn in *. apply Forall_app. split; [done|apply Hf].
Qed.

Lemma only_silent {A} (P : Event -> bool) (m : M A) :
  (forall w, (m w).2 = []) -> only P m.
Proof. intros H w. rewrite H. constructor. Qed.

Lemma only_lift {A} (P : Event -> bool) (r : result A) : only P (lift r).
Proof. apply only_silent. by destruct r. Qed.

Lemma only_record (P : Event -> bool) (e : Event) :
  P e = true -> only P (record e).
Proof. intros H w. cbn. constructor; [by rewrite H|constructor]. Qed.

Lemma only_call {A} (P : Event -> bool) (e : Event) (r : result A) :
  P e = true -> only P (call e r).
Proof.
  intros H. apply only_bind; [by apply only_record|].
  intros _. apply only_lift.
Qed.

Lemma only_set_environ (P : Event -> bool) (k v : string) :
  P (EvSetEnviron k v) = true -> only P (set_environ k v).
Proof.
  intros H w. unfold set_environ.
  destruct (environ_accepts k v); cbn; [|constructor].
  constructor; [by rewrite H|constructor].
Qed.

Lemma only___init__ (P : Event -> bool) (ext : Externals)
    (cs : CustomerScript) (h : string) (hs : list string) (ts es : value)
    (tp : string) (mp : value) (op : string) (mef : value)
    (cp : option loc) (scs : value) :
  (forall p, P (EvGetBucketLocation p) = true) ->
  (forall k v, P (EvSetEnviron k v) = true) ->
  only P (__init__ ext cs h hs ts es tp mp op mef cp scs).
Proof.
  intros Hloc Hset. unfold __init__.
  repeat (apply only_bind; [by apply only_silent|]; intros ?).
  apply only_bind; [|intros ?; by apply only_silent].
  destruct mp as [z|p]; [by apply only_silent|].
  destruct (startswith "s3://" p); [|by apply only_silent].
  unfold _configure_s3_file_system.
  apply only_bind; [by apply only_call|]. intros loc.
  apply only_bind; [|intros ?; by apply only_set_environ].
  destruct loc as [[|c r]|];
    [by apply only_silent|by apply only_set_environ|by apply only_silent].
Qed.

Lemma only_train_setup (ext : Externals) (env : TrainingEnvironment) :
  only is_setup_event (train_setup ext env).
Proof.
  unfold train_setup.
  apply only_bind; [by apply only_silent|]; intros hp.
  apply only_bind; [by apply only_set_environ|]; intros _.
  do 3 (apply only_bind; [by apply only_call|]; intros ?).
  apply only_bind; [apply only_lift|]; intros tp.
  apply only_bind; [by apply only___init__|]; intros self.
  destruct (build_tf_config self) as [tw built].
  apply only_bind; [apply only_lift|]; intros cfg.
  apply only_bind;
    [destruct (decide _); [by apply only_record|by apply only_silent]|].
  intros _. apply only_bind; [|intros ?; by apply only_silent].
  intros w. rewrite save_tf_config_env_var_run. by repeat constructor.
Qed.

Lemma wait_events (ext : Externals) (master : string) (fuel : nat) :
  only (is_wait_event master) (_wait_until_master_is_down ext master fuel).
Proof.
  induction fuel as [|fuel IH]; intros w; [constructor|].
  destruct (exit_status ext (checks w)) as [[|c]|] eqn:Hc.
  - rewrite (wait_step_up _ _ _ _ Hc). unfold after. cbn [snd].
    apply Forall_app. split; [|apply IH].
    repeat constructor; cbn; by rewrite bool_decide_eq_true_2.
  - rewrite (wait_step_down _ _ _ _ _ Hc).
    repeat constructor; cbn; by rewrite ?bool_decide_eq_true_2.
  - rewrite (wait_step_no_curl _ _ _ _ Hc).
    repeat constructor; cbn; by rewrite bool_decide_eq_true_2.
Qed.

(** The events of the [try] block. *)
Lemma train_body_events (ext : Externals) (env : TrainingEnvironment)
    (fuel : nat) (s : Started) (w : World) :
  (train_body ext env fuel s w).2 =
    EvTrainAndLogExceptions (env_output_dir env) ::
    match train_and_log_exceptions ext with
    | Raise _ => []
    | Ok _ =>
        if bool_decide (task_type (train_wrapper s) = Some "master")
        then if bool_decide (checkpoint_dir s ≠ VStr (env_model_dir env))
             then [EvExportSavedModel (checkpoint_dir s) (env_model_dir env)]
             else []
        else match _get_master (tf_config s) with
             | Ok master =>
                 (_wait_until_master_is_down ext master fuel w).2
             | Raise _ => []
             end
    end.
Proof.
  unfold train_body, call, mbind, M_bind, record, lift.
  destruct (train_and_log_exceptions ext) as [[]|x]; [|reflexivity].
  cbn [mret M_ret raise after fst snd app].
  destruct (decide (task_type (train_wrapper s) = Some "master")) as [Hm|Hm].
  - rewrite (bool_decide_eq_true_2 _ Hm), andb_true_r.
    rewrite (bool_decide_eq_false_2
               (task_type (train_wrapper s) ≠ Some "master"))
      by (intros H; by apply H).
    case_bool_decide; cbn; [|reflexivity].
    by destruct (export_saved_model ext) as [[]|x].
  - rewrite (bool_decide_eq_false_2 _ Hm), andb_false_r.
    rewrite (bool_decide_eq_true_2
               (task_type (train_wrapper s) ≠ Some "master")) by done.
    cbn. destruct (_get_master (tf_config s)) as [master|x]; [|reflexivity].
    cbn. by destruct (_wait_until_master_is_down _ _ _ _) as [[[] ?] ?].
Qed.

(** The events of [train]: those of the setup, then, when the setup has
    returned, those of the [try] block and the exit. *)
Lemma train_events (ext : Externals) (env : TrainingEnvironment)
    (fuel : nat) (w : World) :
  (train ext env fuel w).2 =
    match train_setup ext env w with
    | (Returns s, w1, evs1) =>
        evs1 ++ (train_body ext env fuel s w1).2 ++
        match (train_body ext env fuel s w1).1.1 with
        | Returns _ | Raises _ => [EvOsExit 0]
        | _ => []
        end
    | (_, _, evs1) => evs1
    end.
Proof.
  unfold train, mbind, M_bind, try_finally, os_exit.
  destruct (train_setup ext env w) as [[[s|e|c|] w1] evs1]; try done.
  destruct (train_body ext env fuel s w1) as [[[u|e|c|] w2] evs2];
    cbn; by rewrite ?app_nil_r.
Qed.

Lemma contains_take_1 (x : string) (l : list string) :
  contains x (take 1 l) = bool_decide (head l = Some x).
Proof.
  unfold contains. destruct l as [|h t]; cbn.
  - rewrite bool_decide_eq_false_2 by (by intros ?%elem_of_nil).
    by rewrite bool_decide_eq_false_2.
  - change (take 0 t) with (@nil string).
    apply bool_decide_ext. rewrite list_elem_of_singleton.
    split; [by intros ->|by intros [= ->]].
Qed.

(** The role and the master of the host, once the setup has returned. *)
Lemma train_setup_roles (ext : Externals) (env : TrainingEnvironment)
    (w w1 : World) (s : Started) (evs1 : list Event) :
  train_setup ext env w = (Returns s, w1, evs1) ->
  exists h t,
    env_hosts env = h :: t /\
    env_current_host env ∈ h :: t /\
    task_type (train_wrapper s) =
      Some (if bool_decide (env_current_host env = h)
            then "master" else "worker") /\
    _get_master (tf_config s) = Ok h.
Proof.
  intros H. apply train_setup_Returns in H
    as (cs & tp & self & w0 & evs0 & _ & _ & _ & _ & _ & Hinit & Hb & _).
  apply (f_equal (fun r => r.1.1)) in Hinit. cbn [fst] in Hinit.
  apply __init___self in Hinit.
  assert (Hh : hosts self = env_hosts env) by (by subst self).
  assert (Hc : current_host self = env_current_host env) by (by subst self).
  assert (Hin : current_host self ∈ hosts self).
  { destruct (decide (current_host self ∈ hosts self)) as [|Hn]; [done|].
    apply build_tf_config_raises in Hn. by rewrite Hb in Hn. }
  destruct (hosts self) as [|h t] eqn:Hhs; [by apply elem_of_nil in Hin|].
  destruct (build_tf_config_ok self h t Hhs Hin)
    as (cfg & Hcfg & _ & _ & Hm & _).
  rewrite Hb in Hcfg. injection Hcfg as Htw Hcfg.
  exists h, t. rewrite <- Hh, <- Hc. split_and!; [done..| |].
  - rewrite Htw. cbn [task_type set_task_type]. f_equal.
    unfold _get_task_type. rewrite <- (contains_singleton _ h). done.
  - rewrite Hcfg. unfold _get_master. rewrite Hm. f_equal.
    exact (drop_last_port h).
Qed.

(** X12: [train] exports the saved model exactly when the setup has returned,
    training has returned without an exception, the host is the first of
    the hosts, and the hyperparameter [checkpoint_path] is set to something
    other than the model directory; the export is then from that checkpoint
    path to the model directory. A worker never exports, and neither does
    a host whose training raised. *)
Theorem train_export (ext : Externals) (env : TrainingEnvironment)
    (fuel : nat) (w : World) (c : value) (d : string) :
  let hp := heap w !!! env_hyperparameters env in
  let cd := get hp "checkpoint_path" (VStr (env_model_dir env)) in
  EvExportSavedModel c d ∈ (train ext env fuel w).2 <->
  c = cd /\ d = env_model_dir env /\
  cd <> VStr (env_model_dir env) /\
  head (env_hosts env) = Some (env_current_host env) /\
  train_and_log_exceptions ext = Ok tt /\
  exists s w1 evs1, train_setup ext env w = (Returns s, w1, evs1).
Proof.
  intros hp cd. rewrite train_events.
  pose proof (only_train_setup ext env w) as Hon.
  destruct (train_setup ext env w) as [[o w1] evs1] eqn:Hs. cbn [snd] in Hon.
  rewrite Forall_forall in Hon.
  assert (Hno : EvExportSavedModel c d ∉ evs1)
    by (intros Hin; by apply Hon in Hin).
  destruct o as [s|e|code|];
    [|split; [done|by intros (_ & _ & _ & _ & _ & ? & ? & ? & ?)]..].
  destruct (train_setup_Returns _ _ _ _ _ _ Hs)
    as (_ & _ & _ & _ & _ & _ & _ & _ & _ & _ & _ & _ & Hcd & _).
  destruct (train_setup_roles _ _ _ _ _ _ Hs)
    as (h & t & Hh & _ & Hrole & Hmaster).
  fold hp in Hcd. fold cd in Hcd.
  rewrite !elem_of_app, train_body_events, elem_of_cons.
  rewrite Hrole, Hmaster, Hcd, Hh. cbn [head].
  pose proof (wait_events ext h fuel w1) as Hwait.
  rewrite Forall_forall in Hwait.
  split.
  - intros [?|[[?|Hin]|Hin]]; [done|done| |].
    + destruct (train_and_log_exceptions ext) as [[]|x];
        [|by apply elem_of_nil in Hin].
      destruct (decide (env_current_host env = h)) as [Heq|Hne].
      * rewrite (bool_decide_eq_true_2 _ Heq) in Hin. rewrite Heq.
        rewrite bool_decide_eq_true_2 in Hin by done.
        case_bool_decide as Hc; [|by apply elem_of_nil in Hin].
        apply list_elem_of_singleton in Hin. injection Hin as -> ->.
        split_and!; try done. by exists s, w1, evs1.
      * rewrite (bool_decide_eq_false_2 _ Hne) in Hin.
        rewrite bool_decide_eq_false_2 in Hin by done.
        by apply Hwait in Hin.
    + destruct (train_body ext env fuel s w1).1.1;
        first [by apply list_elem_of_singleton in Hin
              |by apply elem_of_nil in Hin].
  - intros (-> & -> & Hc & [= <-] & -> & _). right. left. right.
    rewrite bool_decide_eq_true_2 by (by rewrite bool_decide_eq_true_2).
    rewrite bool_decide_eq_true_2 by done. apply list_elem_of_singleton. done.
Qed.

Lemma train_export_witness :
  EvExportSavedModel (VStr "/opt/ml/checkpoints") "/opt/ml/model"
  ∈ (train (master_up_for 0) (sample_env "a" ["a"; "b"]) 1 checkpointed).2.
Proof.
  apply (train_export (master_up_for 0) (sample_env "a" ["a"; "b"]) 1
           checkpointed).
  split_and!; [reflexivity..|discriminate|reflexivity|reflexivity|].
  eexists _, _, _. vm_compute. reflexivity.
Defined.

(** X13: The only sub-process [train] starts is [curl] of port 2222 of the
    first host, and the only sleep is of ten seconds; both happen only on
    a host that is not the first one, after its training has returned
    without an exception. The first host neither probes nor sleeps. *)
Theorem train_probes (ext : Externals) (env : TrainingEnvironment)
    (fuel : nat) (w : World) (e : Event) :
  e ∈ (train ext env fuel w).2 ->
  is_check_call e || is_sleep e ->
  exists h t,
    env_hosts env = h :: t /\
    (e = EvCheckCall ["curl"; h +:+ ":2222"] \/ e = EvSleep 10) /\
    env_current_host env <> h /\
    env_current_host env ∈ t /\
    train_and_log_exceptions ext = Ok tt.
Proof.
  intros Hin He. rewrite train_events in Hin.
  pose proof (only_train_setup ext env w) as Hon.
  destruct (train_setup ext env w) as [[o w1] evs1] eqn:Hs. cbn [snd] in Hon.
  rewrite Forall_forall in Hon.
  assert (Hno : e ∉ evs1).
  { intros Hin1. apply Hon in Hin1. by destruct e. }
  destruct o as [s|x|code|]; [|done..].
  destruct (train_setup_roles _ _ _ _ _ _ Hs)
    as (h & t & Hh & Hcur & Hrole & Hmaster).
  exists h, t.
  rewrite !elem_of_app, train_body_events, elem_of_cons in Hin.
  rewrite Hrole, Hmaster in Hin.
  destruct Hin as [?|[[->|Hin]|Hin]]; [done|done| |].
  - destruct (train_and_log_exceptions ext) as [[]|x];
      [|by apply elem_of_nil in Hin].
    destruct (decide (env_current_host env = h)) as [Heq|Hne].
    + rewrite (bool_decide_eq_true_2 _ Heq) in Hin.
      rewrite bool_decide_eq_true_2 in Hin by done.
      destruct (bool_decide (checkpoint_dir s ≠ VStr (env_model_dir env)));
        [|by apply elem_of_nil in Hin].
      apply list_elem_of_singleton in Hin. by subst e.
    + rewrite (bool_decide_eq_false_2 _ Hne) in Hin.
      rewrite bool_decide_eq_false_2 in Hin by done.
      pose proof (wait_events ext h fuel w1) as Hwait.
      rewrite Forall_forall in Hwait. apply Hwait in Hin.
      split_and!; [done| |done| |done].
      * destruct e; try done; cbn in Hin.
        -- left. f_equal. by apply bool_decide_unpack in Hin.
        -- right. f_equal. by apply bool_decide_unpack in Hin.
      * apply elem_of_cons in Hcur as [?|?]; done.
  - destruct (train_body ext env fuel s w1).1.1;
      first [apply list_elem_of_singleton in Hin; by subst e
            |by apply elem_of_nil in Hin].
Qed.

Lemma train_probes_witness :
  exists h t,
    ["a"; "b"] = h :: t /\
    (probe "a" = EvCheckCall ["curl"; h +:+ ":2222"] \/
     probe "a" = EvSleep 10) /\
    "b" <> h /\ "b" ∈ t /\
    train_and_log_exceptions (master_up_for 0) = Ok tt.
Proof.
  apply (train_probes (master_up_for 0) (sample_env "b" ["a"; "b"]) 1 fresh
           (probe "a")).
  - vm_compute. do 10 right. left.
  - reflexivity.
Defined.

(** ** The process when training starts *)

Lemma __init___writes (ext : Externals) (cs : CustomerScript)
    (h : string) (hs : list string) (ts es : value) (tp : string)
    (mp : value) (op : string) (mef : value) (cp : option loc)
    (scs : value) (w : World) (k v : string) :
  EvSetEnviron k v ∈ (__init__ ext cs h hs ts es tp mp op mef cp scs w).2 ->
  k = "S3_REGION" \/ k = "S3_USE_HTTPS" /\ v = "1".
Proof.
  unfold __init__, mbind, M_bind, get_dict, setitem.
  cbn [heap environ checks after fst snd].
  destruct mp as [z|p]; [by intros ?%elem_of_nil|].
  destruct (startswith "s3://" p); [|by intros ?%elem_of_nil].
  rewrite _configure_s3_file_system_run.
  destruct (get_bucket_location ext) as [[[|c r]|]|e];
    try destruct (environ_accepts "S3_REGION" (String c r)); cbn;
    rewrite ?elem_of_cons, ?elem_of_nil; intros H;
    repeat destruct H as [H|H]; try done; injection H as -> ->; auto.
Qed.

(** X14: What the two files themselves write to [os.environ] up to the
    start of training. The first thing [train] does, before the customer
    module is downloaded, installed and imported, is to set
    [S3_REQUEST_TIMEOUT_MSEC] to the hyperparameter
    [s3_checkpoint_save_timeout] as a string, or to 60000 when it is not
    set, and that string holds no NUL byte or training would not start.
    Every write is to that variable, to [S3_REGION], to [S3_USE_HTTPS]
    (always ["1"]) or to [TF_CONFIG] (always the serialised topology);
    and [TF_CONFIG] holds the serialised topology when training
    starts. *)
Theorem train_environ (ext : Externals) (env : TrainingEnvironment)
    (w w1 : World) (s : Started) (evs1 : list Event) :
  train_setup ext env w = (Returns s, w1, evs1) ->
  let hp := heap w !!! env_hyperparameters env in
  let timeout := str (get hp "s3_checkpoint_save_timeout" (VInt 60000)) in
  has_nul timeout = false /\
  (exists rest,
     evs1 = EvSetEnviron "S3_REQUEST_TIMEOUT_MSEC" timeout ::
            EvDownloadUserModule :: EvPipInstallRequirements ::
            EvImportUserModule :: rest) /\
  (forall k v,
     EvSetEnviron k v ∈ evs1 ->
     k = "S3_REQUEST_TIMEOUT_MSEC" /\ v = timeout \/
     k = "S3_REGION" \/
     k = "S3_USE_HTTPS" /\ v = "1" \/
     k = "TF_CONFIG" /\ v = json_dumps ext (tf_config s)) /\
  environ w1 !! "TF_CONFIG" = Some (json_dumps ext (tf_config s)).
Proof.
  intros H hp timeout. apply train_setup_Returns in H
    as (cs & tp & self & w0 & evs0 & Hnul & _ & _ & _ & _ & Hinit & _ & _
        & -> & ->).
  fold hp timeout in Hinit, Hnul.
  apply (f_equal snd) in Hinit. cbn [snd] in Hinit.
  split_and!; [done|by eexists| |].
  - intros k v Hin. fold hp timeout in Hin.
    rewrite !elem_of_app, !elem_of_cons in Hin.
    destruct_or! Hin;
      first [ done
            | by apply elem_of_nil in Hin
            | injection Hin as -> ->; by auto
            | rewrite <- Hinit in Hin; apply __init___writes in Hin;
              destruct Hin as [->|[-> ->]]; by auto
            | destruct (decide (1 < length (env_hosts env)));
              [by apply list_elem_of_singleton in Hin
              |by apply elem_of_nil in Hin] ].
  - cbn [environ_set environ]. by rewrite lookup_insert_eq.
Qed.

Lemma train_environ_witness :
  exists rest,
    (train_setup (master_up_for 0) (sample_env "a" ["a"; "b"]) fresh).2 =
      EvSetEnviron "S3_REQUEST_TIMEOUT_MSEC" "60000" ::
      EvDownloadUserModule :: EvPipInstallRequirements ::
      EvImportUserModule :: rest.
Proof.
  destruct (train_setup (master_up_for 0) (sample_env "a" ["a"; "b"]) fresh)
    as [[o w1] evs1] eqn:Hs.
  assert (Ho : exists s, o = Returns s).
  { apply (f_equal (fun r => r.1.1)) in Hs. vm_compute in Hs.
    rewrite <- Hs. by eexists. }
  destruct Ho as [s ->].
  exact (proj1 (proj2 (train_environ _ _ _ _ _ _ Hs))).
Defined.

Lemma filter_only_not (P : Event -> bool) (evs : list Event) :
  Forall (fun e => negb (P e)) evs -> filter P evs = [].
Proof.
  induction 1 as [|e evs He _ IH]; [done|].
  rewrite filter_cons, IH. destruct (decide (P e)) as [Hp|]; [|done].
  by destruct (P e).
Qed.

(** X15: In a run of more than one host, every host, the first one included,
    starts one parameter-server thread before the topology is published,
    and gives it its own name, the list of hosts and the topology that is
    then published; with these arguments [start_ps_server] finds the host
    in the list, so it does not raise, and makes the server of the job
    ["ps"] whose task index is the position of the host among all hosts.
    A run of one host starts no thread. *)
Theorem train_parameter_server (ext : Externals) (env : TrainingEnvironment)
    (w w1 : World) (s : Started) (evs1 : list Event) :
  train_setup ext env w = (Returns s, w1, evs1) ->
  filter is_thread_start evs1 =
    (if decide (1 < length (env_hosts env))
     then [EvThreadStart (env_current_host env) (env_hosts env)
             (tf_config s)]
     else []) /\
  exists i,
    start_ps_server (env_current_host env) (env_hosts env) (tf_config s) =
      Ok (cluster (tf_config s), "ps", i) /\
    env_hosts env !! i = Some (env_current_host env).
Proof.
  intros H.
  destruct (train_setup_roles _ _ _ _ _ _ H) as (h & t & Hh & Hcur & _).
  apply train_setup_Returns in H
    as (cs & tp & self & w0 & evs0 & _ & _ & _ & _ & _ & Hinit & _ & _ & _ & ->).
  split.
  - pose proof (only___init__ (fun e => negb (is_thread_start e)) ext cs
                  (env_current_host env) (env_hosts env)
                  (get (heap w !!! env_hyperparameters env) "training_steps"
                     (VInt 1000))
                  (get (heap w !!! env_hyperparameters env)
                     "evaluation_steps" (VInt 100))
                  tp
                  (get (heap w !!! env_hyperparameters env) "checkpoint_path"
                     (VStr (env_model_dir env)))
                  (env_output_dir env) (VInt 1000)
                  (Some (env_hyperparameters env)) (VInt 300)
                  (fun _ => eq_refl) (fun _ _ => eq_refl)) as Hon.
    specialize (Hon (environ_set "S3_REQUEST_TIMEOUT_MSEC"
                       (str (get (heap w !!! env_hyperparameters env)
                               "s3_checkpoint_save_timeout" (VInt 60000)))
                       w)).
    rewrite Hinit in Hon. cbn [snd] in Hon.
    rewrite !filter_app, (filter_only_not _ _ Hon).
    by destruct (decide (1 < length (env_hosts env))).
  - rewrite Hh. destruct (list_index_elem _ _ Hcur) as (n & Hn & Hlk & _).
    exists n. unfold start_ps_server. by rewrite Hn.
Qed.

Lemma train_parameter_server_witness :
  exists s i,
    filter is_thread_start
      (train_setup (master_up_for 0) (sample_env "b" ["a"; "b"]) fresh).2 =
      [EvThreadStart "b" ["a"; "b"] (tf_config s)] /\
    start_ps_server "b" ["a"; "b"] (tf_config s) =
      Ok (cluster (tf_config s), "ps", i) /\
    ["a"; "b"] !! i = Some "b".
Proof.
  destruct (train_setup (master_up_for 0) (sample_env "b" ["a"; "b"]) fresh)
    as [[o w1] evs1] eqn:Hs.
  assert (Ho : exists s, o = Returns s).
  { apply (f_equal (fun r => r.1.1)) in Hs. vm_compute in Hs.
    rewrite <- Hs. by eexists. }
  destruct Ho as [s ->].
  destruct (train_parameter_server _ _ _ _ _ _ Hs) as (Hf & i & Hi & Hl).
  by exists s, i.
Defined.

(** X16: The trainer that [train] makes, once the setup has returned: it is
    for the imported customer module, the host and the hosts of the
    environment; its steps are the hyperparameters [training_steps] and
    [evaluation_steps], or 1000 and 100; its model path is the
    hyperparameter [checkpoint_path], or the model directory; its training
    path is the channel ["training"]; its role is master on the first host
    and worker on the others; and its parameters are the hyperparameters
    of the environment themselves, to which [min_eval_frequency] (1000)
    and [save_checkpoints_secs] (300) have been added where they were not
    set. Nothing else in the hyperparameters has changed. *)
Theorem train_trainer (ext : Externals) (env : TrainingEnvironment)
    (w w1 : World) (s : Started) (evs1 : list Event) :
  train_setup ext env w = (Returns s, w1, evs1) ->
  let hp := heap w !!! env_hyperparameters env in
  exists cs tp,
    import_user_module ext = Ok cs /\
    env_channel_dirs env !! CHANNEL_DIR = Some tp /\
    train_wrapper s =
      {| customer_script := cs;
         current_host := env_current_host env;
         hosts := env_hosts env;
         train_steps := get hp "training_steps" (VInt 1000);
         eval_steps := get hp "evaluation_steps" (VInt 100);
         training_path := tp;
         model_path := get hp "checkpoint_path" (VStr (env_model_dir env));
         ouput_path := env_output_dir env;
         task_type :=
           Some (if bool_decide
                      (head (env_hosts env) = Some (env_current_host env))
                 then "master" else "worker");
         customer_params := env_hyperparameters env |} /\
    checkpoint_dir s = model_path (train_wrapper s) /\
    heap w1 =
      <[env_hyperparameters env :=
          <["save_checkpoints_secs" :=
              get hp "save_checkpoints_secs" (VInt 300)]>
            (<["min_eval_frequency" :=
                 get hp "min_eval_frequency" (VInt 1000)]> hp)]> (heap w).
Proof.
  intros H hp. apply train_setup_Returns in H
    as (cs & tp & self & w0 & evs0 & _ & _ & _ & Himp & Htp & Hinit & Hb & Hcd
        & -> & _).
  fold hp in Hinit, Hcd.
  pose proof (f_equal (fun r => r.1.1) Hinit) as Hself.
  pose proof (f_equal (fun r => heap r.1.2) Hinit) as Hheap.
  cbn [fst snd] in Hself, Hheap.
  apply __init___self in Hself. rewrite __init___heap in Hheap.
  cbn [default environ_set heap] in Hheap. fold hp in Hheap.
  assert (Htw : train_wrapper s =
                set_task_type self
                  (_get_task_type self (take 1 (hosts self))))
    by (apply (f_equal fst) in Hb; cbn [fst] in Hb; by rewrite <- Hb).
  exists cs, tp. split_and!; [done|done| | |].
  - rewrite Htw. unfold set_task_type, _get_task_type.
    rewrite contains_take_1. by subst self.
  - rewrite Htw, Hcd. by subst self.
  - cbn [environ_set heap]. rewrite <- Hheap. do 2 f_equal.
    unfold get. by rewrite lookup_insert_ne.
Qed.

Lemma train_trainer_witness :
  exists s,
    (train_setup (master_up_for 0) (sample_env "b" ["a"; "b"])
       checkpointed).1.1 = Returns s /\
    train_steps (train_wrapper s) = VInt 1000 /\
    model_path (train_wrapper s) = VStr "/opt/ml/checkpoints" /\
    task_type (train_wrapper s) = Some "worker".
Proof.
  destruct (train_setup (master_up_for 0) (sample_env "b" ["a"; "b"])
              checkpointed) as [[o w1] evs1] eqn:Hs.
  assert (Ho : exists s, o = Returns s).
  { apply (f_equal (fun r => r.1.1)) in Hs. vm_compute in Hs.
    rewrite <- Hs. by eexists. }
  destruct Ho as [s ->].
  destruct (train_trainer _ _ _ _ _ _ Hs) as (cs & tp & _ & _ & Htw & _).
  exists s. rewrite Htw. split_and!; [done|by vm_compute..].
Defined.



(** With a NUL byte in [s3_checkpoint_save_timeout], the first statement
    that touches the process raises, before any collaborator is called
    and without the forced exit. *)
Example train_nul_timeout :
  train (master_up_for 0) (sample_env "a" ["a"]) 1 nul_timeout =
    (Raises ValueError, nul_timeout, []).
Proof. by vm_compute. Qed.

(** ** The master's name and the port *)

Lemma count_chars_app (l1 l2 : list Ascii.ascii) :
  count_chars (l1 ++ l2) = count_chars l1 + count_chars l2.
Proof.
  induction l1 as [|b l1 IH]; cbn; [done|].
  destruct (is_continuation b); lia.
Qed.

Lemma count_chars_rev (l : list Ascii.ascii) :
  count_chars (rev l) = count_chars l.
Proof.
  induction l as [|b l IH]; cbn; [done|].
  rewrite count_chars_app, IH. cbn. destruct (is_continuation b); lia.
Qed.

Lemma length_skip_continuation (l : list Ascii.ascii) :
  length (skip_continuation l) <= length l.
Proof.
  induction l as [|b l IH]; cbn; [done|].
  destruct (is_continuation b); cbn; lia.
Qed.

Lemma length_drop_chars (n : nat) (l : list Ascii.ascii) :
  length (drop_chars n l) <= length l.
Proof.
  revert l. induction n as [|n IH]; intros l; cbn; [done|].
  pose proof (length_skip_continuation l) as Hs.
  destruct (skip_continuation l) as [|b l']; cbn in *; [lia|].
  specialize (IH l'). lia.
Qed.

Lemma length_drop_chars_S (n : nat) (l : list Ascii.ascii) :
  l <> [] -> length (drop_chars (S n) l) < length l.
Proof.
  intros Hl. cbn. pose proof (length_skip_continuation l) as Hs.
  destruct (skip_continuation l) as [|b l']; cbn in *.
  - destruct l; [done|cbn; lia].
  - pose proof (length_drop_chars n l'). lia.
Qed.

Lemma drop_chars_app_gt (l1 l2 : list Ascii.ascii) (x : Ascii.ascii) :
  forall n,
    count_chars l1 < n -> is_continuation x = false ->
    drop_chars n (l1 ++ x :: l2) = drop_chars (n - count_chars l1 - 1) l2.
Proof.
  induction l1 as [|b l1 IH]; intros [|n] Hn Hx; cbn in Hn; try lia.
  - cbn. rewrite Hx. by rewrite Nat.sub_0_r.
  - cbn [app count_chars]. destruct (is_continuation b) eqn:Hb.
    + rewrite <- (IH (S n)) by done. cbn. by rewrite Hb.
    + cbn [drop_chars skip_continuation]. rewrite Hb.
      rewrite IH by (done || lia). f_equal; lia.
Qed.

Lemma drop_chars_app_le (l1 l2 : list Ascii.ascii) :
  forall n,
    n <= count_chars l1 ->
    exists l1', drop_chars n (l1 ++ l2) = l1' ++ l2.
Proof.
  induction l1 as [|b l1 IH]; intros [|n] Hn; cbn in Hn.
  - by exists [].
  - lia.
  - by exists (b :: l1).
  - cbn [app]. destruct (is_continuation b) eqn:Hb.
    + destruct (IH (S n) Hn) as [l1' Hl]. exists l1'.
      rewrite <- Hl. cbn. by rewrite Hb.
    + destruct (IH n ltac:(lia)) as [l1' Hl]. exists l1'.
      cbn [drop_chars skip_continuation]. by rewrite Hb.
Qed.

(** [_get_master] cuts the last five characters of the first master
    address, whatever they are: for an address [host:port] it gives the
    host back exactly when the port has four characters, as the port 2222
    of [build_tf_config] has; with a shorter or longer port it gives
    another string than the host, without an error. *)
Theorem _get_master_port (cfg : TfConfig) (h p : string)
    (rest : list string) :
  cluster cfg !! "master" = Some (format_host_port h p :: rest) ->
  exists m,
    _get_master cfg = Ok m /\
    (len p = 4 -> m = h) /\
    (len p <> 4 -> h <> EmptyString -> m <> h).
Proof.
  intros Hm. unfold _get_master. rewrite Hm. eexists. split; [done|].
  unfold drop_last, format_host_port, len.
  rewrite !list_ascii_of_string_append, !rev_app_distr.
  cbn [String.list_ascii_of_string rev app]. rewrite <- app_assoc.
  cbn [app].
  set (lh := rev (String.list_ascii_of_string h)).
  set (lp := rev (String.list_ascii_of_string p)).
  rewrite <- (count_chars_rev (String.list_ascii_of_string p)). fold lp.
  split.
  - intros Hp. rewrite drop_chars_app_gt by (done || lia).
    rewrite Hp. cbn [Nat.sub drop_chars]. unfold lh.
    by rewrite rev_involutive, String.string_of_list_ascii_of_string.
  - intros Hp Hh Heq.
    apply (f_equal String.list_ascii_of_string) in Heq.
    rewrite String.list_ascii_of_string_of_list_ascii in Heq.
    apply (f_equal (@rev _)) in Heq. rewrite rev_involutive in Heq.
    fold lh in Heq. apply (f_equal length) in Heq.
    assert (Hne : lh <> []).
    { unfold lh. destruct h as [|c h]; [done|]. cbn.
      intros H. by apply app_eq_nil in H as [_ ?]. }
    destruct (decide (count_chars lp < 4)) as [Hlt|Hge].
    + rewrite drop_chars_app_gt in Heq by (done || lia).
      replace (5 - count_chars lp - 1) with (S (3 - count_chars lp))
        in Heq by lia.
      pose proof (length_drop_chars_S (3 - count_chars lp) lh Hne). lia.
    + match type of Heq with
      | context [drop_chars 5 (lp ++ ?l2)] =>
          destruct (drop_chars_app_le lp l2 5 ltac:(lia)) as [l1' Hl]
      end.
      rewrite Hl, length_app in Heq. cbn in Heq. lia.
Qed.

Lemma _get_master_port_witness :
  (exists m,
     _get_master {| cluster := {[ "master" := ["algo-1:22"] ]};
                    task := {| index := 0; type := "master" |};
                    environment := "cloud" |} = Ok m /\
     m <> "algo-1") /\
  _get_master {| cluster := {[ "master" := ["a:éé22"] ]};
                 task := {| index := 0; type := "master" |};
                 environment := "cloud" |} = Ok "a".
Proof.
  split.
  - destruct (_get_master_port
                {| cluster := {[ "master" := ["algo-1:22"] ]};
                   task := {| index := 0; type := "master" |};
                   environment := "cloud" |} "algo-1" "22" [])
      as (m & Hm & _ & Hne); [by vm_compute|].
    exists m. split; [done|]. apply Hne; [by vm_compute|done].
  - destruct (_get_master_port
                {| cluster := {[ "master" := ["a:éé22"] ]};
                   task := {| index := 0; type := "master" |};
                   environment := "cloud" |} "a" "éé22" [])
      as (m & Hm & Heq & _); [by vm_compute|].
    rewrite Hm. f_equal. apply Heq. by vm_compute.
Defined.

(** ** The experiment function *)

Lemma _experiment_fn_run (inputs : CustomerInputs) (self : Trainer)
    (estimator : Estimator) (output_dir : string) (w : World) :
  let experiment_params :=
    filter (fun kv => kv.1 ∈ valid_experiment_keys)
      (heap w !!! customer_params self) in
  _experiment_fn inputs self estimator output_dir w =
    (Returns {| exp_estimator := estimator;
                exp_train_input_fn := _train_input_fn inputs self;
                exp_eval_input_fn := _eval_input_fn inputs self;
                exp_serving_input_fn := _serving_input_fn inputs self;
                exp_exports_to_keep := 1;
                exp_train_steps := train_steps self;
                exp_eval_steps := eval_steps self;
                exp_params := experiment_params |},
     w, [EvLogInfo "creating Experiment:"; EvLogParams experiment_params]).
Proof. reflexivity. Qed.

(** X19: [_generate_experiment_fn] builds the estimator once, when it is
    called: if that raises, it raises and makes no function; otherwise the
    function it returns makes, each time it is called and in whatever
    state the process is then, an experiment with that same estimator,
    without building or logging an estimator again. *)
Theorem _generate_experiment_fn_estimator (inputs : CustomerInputs)
    (self : Trainer) (w : World) :
  let built := _build_estimator self w in
  match built.1.1 with
  | Returns estimator =>
      exists fn,
        _generate_experiment_fn inputs self w =
          (Returns fn, built.1.2, built.2) /\
        forall output_dir w2,
          exists e,
            fn output_dir w2 =
              (Returns e, w2,
               [EvLogInfo "creating Experiment:";
                EvLogParams (exp_params e)]) /\
            exp_estimator e = estimator
  | Raises x =>
      (_generate_experiment_fn inputs self w).1.1 = Raises x /\
      (_generate_experiment_fn inputs self w).2 = built.2
  | _ => False
  end.
Proof.
  intros built. subst built.
  pose proof (_build_estimator_run self w) as Hrun. cbn zeta in Hrun.
  unfold _generate_experiment_fn, mbind, M_bind.
  destruct (_build_estimator self w) as [[o w1] evs1]. cbn [fst snd] in *.
  destruct o as [est|x|c|].
  - exists (_experiment_fn inputs self est).
    unfold after. cbn. rewrite app_nil_r. split; [done|].
    intros output_dir w2. rewrite _experiment_fn_run. cbn zeta.
    eexists (mkExperiment _ _ _ _ _ _ _ _). split; reflexivity.
  - done.
  - by repeat case_match.
  - by repeat case_match.
Qed.
